(** * Flask-SAPB1: a shallow embedding of [flask_sapb1.py]

    The adaptor is orchestration code over two external systems, the
    SAP B1 business-object API (COM) and the company database (pymssql).
    The embedding keeps the Python code's own data (dictionaries, lists,
    strings, [None]) and its effects (exceptions, the application
    context, the shared default list of [getShipments]) and takes the
    answers of the two external systems from an environment record. *)

From stdpp Require Import gmap strings list fin_maps pretty.
From Stdlib Require Import ZArith Ascii Lia.

Open Scope Z_scope.

(** ** Python values *)

(** A [datetime.datetime] value, field by field. *)
Record datetime := DateTime {
  dt_year : Z; dt_month : Z; dt_day : Z;
  dt_hour : Z; dt_minute : Z; dt_second : Z
}.

(** The values that travel through the adaptor: database cells, order
    and contact fields, filter values.  [PDecimal] is a
    [decimal.Decimal] and [POther] any further object (float, date,
    bytes, uuid ...); both are carried by the text [str()] gives. *)
Inductive pyval :=
| PNone
| PInt (z : Z)
| PStr (s : string)
| PDecimal (repr : string)
| PDateTime (d : datetime)
| POther (repr : string).

Global Instance datetime_eq_dec : EqDecision datetime.
Proof. solve_decision. Defined.

Global Instance pyval_eq_dec : EqDecision pyval.
Proof. solve_decision. Defined.

(** Exceptions the modelled code can raise. *)
Inductive pyexn :=
| KeyError (key : string)
| IndexError
| TypeError (msg : string)
| ValueError (msg : string)
| AttributeError (cls attr : string)
| Exception (msg : string).

(** ** Strings *)

(** The first [n] characters of [s] (all of [s] when it is shorter). *)
Fixpoint str_take (n : nat) (s : string) : string :=
  match n, s with
  | S n', String c s' => String c (str_take n' s')
  | _, _ => ""
  end.

(** Python's [s[0:stop]]: a negative [stop] counts from the end. *)
Definition py_slice_to (s : string) (stop : Z) : string :=
  if stop <? 0
  then str_take (Z.to_nat (Z.of_nat (String.length s) + stop)) s
  else str_take (Z.to_nat stop) s.

(** [sep.join(l)] *)
Fixpoint py_join (sep : string) (l : list string) : string :=
  match l with
  | [] => ""
  | [x] => x
  | x :: l' => x +:+ sep +:+ py_join sep l'
  end.

(** [n] copies of the character [c]. *)
Fixpoint str_repeat (c : ascii) (n : nat) : string :=
  match n with
  | O => ""
  | S n' => String c (str_repeat c n')
  end.

(** Zero padding on the left to [width] digits, as [%m], [%d] ... do. *)
Definition zero_pad (width : nat) (z : Z) : string :=
  let s := pretty z in
  str_repeat "0"%char (width - String.length s) +:+ s.

(** [v.strftime("%Y-%m-%d %H:%M:%S")] *)
Definition strftime (d : datetime) : string :=
  zero_pad 4 (dt_year d) +:+ "-" +:+ zero_pad 2 (dt_month d) +:+ "-" +:+
  zero_pad 2 (dt_day d) +:+ " " +:+ zero_pad 2 (dt_hour d) +:+ ":" +:+
  zero_pad 2 (dt_minute d) +:+ ":" +:+ zero_pad 2 (dt_second d).

(** [str(v)], which is also what ["{0}".format(v)] inserts. *)
Definition py_str (v : pyval) : string :=
  match v with
  | PNone => "None"
  | PInt z => pretty z
  | PStr s => s
  | PDecimal r => r
  | PDateTime d => strftime d
  | POther r => r
  end.

(** ** Results, dictionaries *)

(** What a piece of Python code produces: a value or a raised exception. *)
Inductive result (A : Type) : Type :=
| Ok (a : A)
| Raise (e : pyexn).
Arguments Ok {A} a.
Arguments Raise {A} e.

Global Instance result_ret : MRet result := λ A a, Ok a.
Global Instance result_bind : MBind result := λ A B f r,
  match r with
  | Ok a => f a
  | Raise e => Raise e
  end.

(** [d[k]] on a dictionary with string keys. *)
Definition dict_item {V} (d : gmap string V) (k : string) : result V :=
  match d !! k with
  | Some v => Ok v
  | None => Raise (KeyError k)
  end.

(** A dictionary whose iteration order matters (the filter map of the
    query builder): its entries, in iteration order. *)
Abbreviation odict V := (list (string * V)).

Fixpoint odict_lookup {V} (d : odict V) (k : string) : option V :=
  match d with
  | [] => None
  | (k', v) :: d' => if decide (k' = k) then Some v else odict_lookup d' k
  end.

(** [d[k]] *)
Definition odict_item {V} (d : odict V) (k : string) : result V :=
  match odict_lookup d k with
  | Some v => Ok v
  | None => Raise (KeyError k)
  end.

(** [d[k] = v]: an existing key keeps its place, a new one goes last. *)
Fixpoint odict_set {V} (d : odict V) (k : string) (v : V) : odict V :=
  match d with
  | [] => [(k, v)]
  | (k', v') :: d' =>
      if decide (k' = k) then (k', v) :: d' else (k', v') :: odict_set d' k v
  end.

(** [d.keys()] *)
Definition odict_keys {V} (d : odict V) : list string := d.*1.

(** A database row as pymssql hands it over with [as_dict=True]. *)
Abbreviation row := (gmap string pyval).

(** ** The outside world *)

(** The second argument of [cursor.execute]. *)
Inductive sqlargs :=
| ArgsNone
| ArgsTuple (l : list pyval)
| ArgsKwargs (d : list (string * pyval))
| ArgsDict (d : odict pyval)
| ArgsValue (v : pyval).

(** What the adaptor does to its collaborators, in order. *)
Inductive event :=
| ComConnect
| ComDisconnect
| SqlConnect
| SqlClose
| LogInfo (msg : string)
| LogError (msg : string)
| SqlExecute (sql : string) (args : sqlargs)
| ComCall (method : string) (args : list pyval)
| ComSet (field : string) (v : pyval).

Global Instance sqlargs_eq_dec : EqDecision sqlargs.
Proof. solve_decision. Defined.

Global Instance event_eq_dec : EqDecision event.
Proof. solve_decision. Defined.

(** Everything outside the adaptor's own code: the answers of the two
    remote systems, the clock, and Python's number conversions.  An
    answer may depend on everything the adaptor has done so far.  The
    remote systems answer; the exceptions of the model are those the
    Python code itself raises. *)
Record world := World {
  (** [company.CompanyName] *)
  CompanyName : string;
  (** the rows the cursor holds after [cursor.execute(sql, args)] *)
  cursor_rows : list event -> string -> sqlargs -> list row;
  (** the integer a business-object property or method gives
      ([Count], [InternalCode], [Update], [Add], [Cancel]) *)
  com_int : list event -> string -> Z;
  (** [company.GetLastErrorDescription()] *)
  GetLastErrorDescription : list event -> string;
  (** [company.GetLastError()] *)
  GetLastError : list event -> pyval;
  (** [time()] *)
  time : list event -> pyval;
  (** [float(v)] *)
  py_float : pyval -> result pyval;
  (** [decimal.Decimal(v)] *)
  py_Decimal : pyval -> result pyval
}.

(** [SapB1ComAdaptor]: the company object and whether it is connected. *)
Record SapB1ComAdaptor := { company_connected : bool }.

(** [MsSqlAdaptor]: the connection and whether it is open. *)
Record MsSqlAdaptor := { conn_open : bool }.

(** The program state: the application context ([stack.top]) with its
    two optional attributes, the list objects in the store, and the
    record of what was done to the outside world. *)
Record state := State {
  (** [ctx._COM], when the attribute exists *)
  ctx_COM : option SapB1ComAdaptor;
  (** [ctx._SQL], when the attribute exists *)
  ctx_SQL : option MsSqlAdaptor;
  (** the list object that is the default of [getShipments]' [columns] *)
  getShipments_columns_default : list string;
  (** list objects owned by callers, by address *)
  heap : gmap nat (list string);
  trace : list event
}.

(** A fresh unit of work in a fresh process. *)
Definition initial_state : state :=
  {| ctx_COM := None; ctx_SQL := None;
     getShipments_columns_default := []; heap := ∅; trace := [] |}.

Definition set_ctx_COM (c : option SapB1ComAdaptor) (st : state) : state :=
  {| ctx_COM := c; ctx_SQL := ctx_SQL st;
     getShipments_columns_default := getShipments_columns_default st;
     heap := heap st; trace := trace st |}.

Definition set_ctx_SQL (c : option MsSqlAdaptor) (st : state) : state :=
  {| ctx_COM := ctx_COM st; ctx_SQL := c;
     getShipments_columns_default := getShipments_columns_default st;
     heap := heap st; trace := trace st |}.

Definition set_columns_default (l : list string) (st : state) : state :=
  {| ctx_COM := ctx_COM st; ctx_SQL := ctx_SQL st;
     getShipments_columns_default := l;
     heap := heap st; trace := trace st |}.

Definition set_heap (h : gmap nat (list string)) (st : state) : state :=
  {| ctx_COM := ctx_COM st; ctx_SQL := ctx_SQL st;
     getShipments_columns_default := getShipments_columns_default st;
     heap := h; trace := trace st |}.

Definition add_event (e : event) (st : state) : state :=
  {| ctx_COM := ctx_COM st; ctx_SQL := ctx_SQL st;
     getShipments_columns_default := getShipments_columns_default st;
     heap := heap st; trace := trace st ++ [e] |}.

(** ** The monad of the adaptor's methods: state and exceptions.
    A raised exception keeps the state reached so far. *)
Definition M (A : Type) : Type := state -> result A * state.

Global Instance M_ret : MRet M := λ A a st, (Ok a, st).
Global Instance M_bind : MBind M := λ A B f m st,
  match m st with
  | (Ok a, st') => f a st'
  | (Raise e, st') => (Raise e, st')
  end.

Definition get : M state := λ st, (Ok st, st).
Definition modify (f : state -> state) : M unit := λ st, (Ok tt, f st).
Definition raise {A} (e : pyexn) : M A := λ st, (Raise e, st).
Definition lift {A} (r : result A) : M A := λ st, (r, st).
Definition emit (e : event) : M unit := modify (add_event e).


(** ** [SAPB1Adaptor.trimValue] *)

(** [if len(value) > maxLength: return value[0:maxLength-1]] *)
Definition trimValue (value : string) (maxLength : Z) : string :=
  if Z.of_nat (String.length value) >? maxLength
  then py_slice_to value (maxLength - 1)
  else value.

(** ** Row normalisation *)

(** The body of [fetch_all]'s inner loop: the value stored for a cell. *)
Definition fetch_all_value (v : pyval) : pyval :=
  match v with
  | PDateTime d => PStr (strftime d)
  | PDecimal _ => PStr (py_str v)
  | PNone => PStr ""
  | _ => v
  end.

(** [item = {}; for k, v in row.items(): ...; item[k] = value] *)
Definition fetch_all_item (r : row) : row :=
  map_fold (λ k v item, <[k := fetch_all_value v]> item) ∅ r.

(** The body of [getOrders]' inner loop. *)
Definition getOrders_value (v : pyval) : pyval :=
  match v with
  | PDateTime d => PStr (strftime d)
  | PNone => PStr ""
  | _ => PStr (py_str v)
  end.

(** [order = {}; for k, v in row.items(): ...; order[k] = value] *)
Definition getOrders_order (r : row) : row :=
  map_fold (λ k v order, <[k := getOrders_value v]> order) ∅ r.

(** ** The query builder *)

(** A filter: the dictionary [{'value': ..., 'op': ...}]. *)
Abbreviation filter_dict := (gmap string pyval).

(** [cols = '*'; if len(columns) > 0: cols = " ,".join(columns)] *)
Definition select_cols (columns : list string) : string :=
  if (0 <? length columns)%nat then py_join " ," columns else "*".

(** ['=' if 'op' not in params[key].keys() else params[key]['op']] *)
Definition filter_op (f : filter_dict) : result pyval :=
  if bool_decide ("op" ∉ dom f) then Ok (PStr "=") else dict_item f "op".

(** One step of the comprehension below: [ops[key] = ...]. *)
Definition build_ops_step (params : odict filter_dict)
    (acc : result (odict pyval)) (key : string) : result (odict pyval) :=
  ops ← acc;
  f ← odict_item params key;
  op ← filter_op f;
  mret (odict_set ops key op).

Global Arguments build_ops_step : simpl never.

(** [ops = {key: ... for key in params.keys()}] *)
Definition build_ops (params : odict filter_dict) : result (odict pyval) :=
  foldl (build_ops_step params) (Ok []) (odict_keys params).

(** ["{0} {1} %({2})s".format(k, ops[k], k)] *)
Definition where_clause (ops : odict pyval) (k : string) : result string :=
  op ← odict_item ops k;
  mret (k +:+ " " +:+ py_str op +:+ " %(" +:+ k +:+ ")s").

Global Arguments where_clause : simpl never.

(** [[... for k in params.keys()]] *)
Definition where_clauses (ops : odict pyval) (params : odict filter_dict)
  : result (list string) :=
  mapM (where_clause ops) (odict_keys params).

(** [sql + ' WHERE ' + " AND ".join(...)] when [len(params) > 0]. *)
Definition add_where (sql : string) (ops : odict pyval) (params : odict filter_dict)
  : result string :=
  if (0 <? length params)%nat
  then clauses ← where_clauses ops params;
       mret (sql +:+ " WHERE " +:+ py_join " AND " clauses)
  else mret sql.

(** The statement [getOrders] builds (lines 155-161). *)
Definition getOrders_sql (num : Z) (columns : list string)
    (params : odict filter_dict) : result string :=
  let cols := select_cols columns in
  ops ← build_ops params;
  let sql := "SELECT top " +:+ pretty num +:+ " " +:+ cols +:+ " FROM dbo.ORDR" in
  add_where sql ops params.

(** One step of the comprehension below: [args[key] = params[key]['value']]. *)
Definition getOrders_args_step (params : odict filter_dict)
    (acc : result (odict pyval)) (key : string) : result (odict pyval) :=
  args ← acc;
  f ← odict_item params key;
  v ← dict_item f "value";
  mret (odict_set args key v).

Global Arguments getOrders_args_step : simpl never.

(** [{key: params[key]['value'] for key in params.keys()}] *)
Definition getOrders_args (params : odict filter_dict) : result (odict pyval) :=
  foldl (getOrders_args_step params) (Ok []) (odict_keys params).

(** The operator the specification gives a filter: its ['op'] entry,
    and ['='] when it has none. *)
Definition op_or_eq (f : filter_dict) : pyval := default (PStr "=") (f !! "op").

(** The clause the specification gives a filter entry:
    [column operator %(column)s]. *)
Definition clause_of (kf : string * filter_dict) : string :=
  kf.1 +:+ " " +:+ py_str (op_or_eq kf.2) +:+ " %(" +:+ kf.1 +:+ ")s".

(** [MsSqlAdaptor.execute]: how [*args] and [**kwargs] reach the cursor. *)
Definition execute_args (args : list pyval) (kwargs : list (string * pyval))
  : sqlargs :=
  let a := if (0 <? length args)%nat then ArgsTuple args else ArgsNone in
  if (0 <? length kwargs)%nat then ArgsKwargs kwargs else a.

(** ** Further Python operations on cells and containers *)

(** The operand of a string concatenation [v + ' ...']. *)
Definition as_str (v : pyval) : result string :=
  match v with
  | PStr s => Ok s
  | _ => Raise (TypeError "unsupported operand type(s) for +")
  end.

(** [trimValue] on a cell: only a string has a [len()] here. *)
Definition trimValue_cell (v : pyval) (maxLength : Z) : result pyval :=
  match v with
  | PStr s => Ok (PStr (trimValue s maxLength))
  | _ => Raise (TypeError "object has no len()")
  end.

(** [l[i]] on a list. *)
Definition list_item {A} (l : list A) (i : nat) : result A :=
  match l !! i with
  | Some x => Ok x
  | None => Raise IndexError
  end.

(** [r[k]] on what [fetchone] gave: a row or [None]. *)
Definition subscript_row (r : option row) (k : string) : result pyval :=
  match r with
  | Some r => dict_item r k
  | None => Raise (TypeError "'NoneType' object is not subscriptable")
  end.

(** ['null' if v is None else v] *)
Definition null_if_None (v : pyval) : pyval :=
  match v with
  | PNone => PStr "null"
  | _ => v
  end.

(** Whether a string-or-[None] argument is true: [if whs:]. *)
Definition truthy (v : option string) : bool :=
  match v with
  | Some (String _ _) => true
  | _ => false
  end.

(** The attributes a [SAPB1Adaptor] object has: [app], which
    [__init__] sets, and the names its class defines. *)
Definition SAPB1Adaptor_attributes : list string :=
  ["app"; "init_app"; "teardown"; "info"; "com_adaptor"; "sql_adaptor";
   "trimValue"; "getOrders"; "getMainCurrency"; "getContacts";
   "insertContact"; "getContactPersonCode"; "getExpnsCode"; "getTrnspCode";
   "getExpnsNames"; "getTrnspNames"; "getPayMethCods"; "getTaxCodes";
   "insertOrder"; "cancelOrder"; "_getShipmentItems"; "getShipments";
   "getItems"; "getPrices"].

(** ['k' in o.keys()] *)
Definition has_key (o : gmap string pyval) (k : string) : bool :=
  bool_decide (k ∈ dom o).

(** The order dictionary [o]: its scalar entries and, when present, the
    list under ['items']. *)
Record order := Order {
  o_fields : gmap string pyval;
  o_items : option (list (gmap string pyval))
}.

(** [o['items']] *)
Definition order_items (o : order) : result (list (gmap string pyval)) :=
  match o_items o with
  | Some items => Ok items
  | None => Raise (KeyError "items")
  end.

(** [o[key] = self.trimValue(o[key], maxLength)] *)
Definition trim_field (key : string) (maxLength : Z) (f : gmap string pyval)
  : result (gmap string pyval) :=
  v ← dict_item f key;
  v' ← trimValue_cell v maxLength;
  mret (<[key := v']> f).

(** The first three statements of [insertOrder] (lines 293-295). *)
Definition insertOrder_trim (o : order) : result order :=
  f ← trim_field "billto_telephone" 20 (o_fields o);
  f ← trim_field "billto_address" 100 f;
  f ← trim_field "shipto_address" 100 f;
  mret {| o_fields := f; o_items := o_items o |}.

(** The filter map by which [insertOrder] (lines 366-370) and
    [cancelOrder] (lines 380-384) look an order up: the user-defined
    field when the order names one, [NumAtCard] otherwise.  The field
    name enters by its text. *)
Definition external_id_params (o : gmap string pyval) : result (odict filter_dict) :=
  if has_key o "fe_order_id_udf"
  then udf ← dict_item o "fe_order_id_udf";
       id ← dict_item o "fe_order_id";
       mret [(py_str udf, ({["value" := PStr (py_str id)]} : filter_dict))]
  else id ← dict_item o "fe_order_id";
       mret [("NumAtCard", ({["value" := PStr (py_str id)]} : filter_dict))].

(** A shipment as [getShipments] returns it: the normalised header row
    and, under ['items'], its line items. *)
Record shipment := Shipment {
  shipment_header : row;
  shipment_items : list row
}.

(** [key, v = k] for a key [k] of the filter map, a string: only a
    string of two characters unpacks into two names. *)
Definition unpack_key (k : string) : result (string * string) :=
  match k with
  | String a (String b EmptyString) => Ok (String a "", String b "")
  | String _ (String _ (String _ _)) =>
      Raise (ValueError "too many values to unpack")
  | _ => Raise (ValueError "need more values to unpack")
  end.

(** [v['value']] for a string [v]. *)
Definition str_subscript (v : string) (k : string) : result pyval :=
  Raise (TypeError "string indices must be integers").

(** One step of the comprehension below. *)
Definition getShipments_p_step (acc : result (odict pyval)) (k : string)
  : result (odict pyval) :=
  p ← acc;
  kv ← unpack_key k;
  val ← str_subscript kv.2 "value";
  mret (odict_set p kv.1 val).

Global Arguments getShipments_p_step : simpl never.

(** [p = {key: v['value'] for key, v in params.keys()}] (line 427) *)
Definition getShipments_p (params : odict filter_dict) : result (odict pyval) :=
  foldl getShipments_p_step (Ok []) (odict_keys params).

(** The list object an argument refers to: the function's default list
    when the argument is left out, else the caller's list at its
    address (a list not yet in the store is a new empty one). *)
Definition read_list (ref : option nat) : M (list string) :=
  st ← get;
  mret (match ref with
        | None => getShipments_columns_default st
        | Some a => default [] (heap st !! a)
        end).

(** In-place update of that list object. *)
Definition write_list (ref : option nat) (l : list string) : M unit :=
  modify (match ref with
          | None => set_columns_default l
          | Some a => λ st, set_heap (<[a := l]> (heap st)) st
          end).

(** [if 'DocEntry' not in columns: columns.append('DocEntry')]
    (lines 418-419 of [getShipments]) *)
Definition ensure_DocEntry (columns : option nat) : M unit :=
  cs ← read_list columns;
  if bool_decide ("DocEntry" ∉ cs)
  then write_list columns (cs ++ ["DocEntry"])
  else mret tt.

(** A computation all of whose runs relate the state before to the
    state after by [R]. *)
Definition steps (R : relation state) {A} (m : M A) : Prop :=
  forall st, R st (m st).2.

(** A line break inside a triple-quoted statement and the indentation
    that follows it. *)
Definition nl (indent : nat) : string :=
  String "010"%char (str_repeat " "%char indent).

(** The statement of [getItems] (lines 436-450). *)
Definition getItems_sql (limit : Z) (columns whs code : option string)
  : string :=
  let cols :=
    if truthy columns then default "" columns
    else "ItemCode, ItemName, ItmsGrpCod, UgpEntry, U_MARCA, U_DIVISION, AvgPrice, CreateDate, UpdateDate" in
  if truthy whs then
    "SELECT top " +:+ pretty limit +:+ " " +:+ cols +:+ " FROM dbo.OITM" +:+
    nl 21 +:+ "WHERE ItemCode in" +:+
    nl 25 +:+ "(SELECT ItemCode FROM dbo.OITW" +:+
    nl 26 +:+ "WHERE WhsCode = '" +:+ default "" whs +:+ "')"
  else if truthy code then
    "SELECT " +:+ cols +:+ " FROM dbo.OITM" +:+
    nl 21 +:+ "WHERE ItemCode = '" +:+ default "" code +:+ "'"
  else
    "SELECT top " +:+ pretty limit +:+ " " +:+ cols +:+ " FROM dbo.OITM".

(** The statement of [getPrices] (lines 455-473). *)
Definition getPrices_sql (limit : Z) (columns whs code : option string)
  : string :=
  let cols :=
    if truthy columns then default "" columns
    else "ItemCode, Price, Currency, Ovrwritten, Factor" in
  let listNumber := 2 in
  if truthy whs then
    "SELECT top " +:+ pretty limit +:+ " " +:+ cols +:+ " FROM dbo.ITM1" +:+
    nl 21 +:+ "WHERE PriceList = " +:+ pretty listNumber +:+
    nl 21 +:+ "AND ItemCode in" +:+
    nl 25 +:+ "(SELECT ItemCode FROM dbo.OITW" +:+
    nl 26 +:+ "WHERE WhsCode = '" +:+ default "" whs +:+ "')"
  else if truthy code then
    "SELECT " +:+ cols +:+ " FROM dbo.ITM1" +:+
    nl 21 +:+ "WHERE PriceList = " +:+ pretty listNumber +:+
    nl 21 +:+ "AND ItemCode = '" +:+ default "" code +:+ "'"
  else
    "SELECT top " +:+ pretty limit +:+ " " +:+ cols +:+ " FROM dbo.ITM1" +:+
    nl 21 +:+ "WHERE PriceList = " +:+ pretty listNumber.

(** ** Connection events *)

(** The events that open or close a connection. *)
Definition is_connection_event (e : event) : bool :=
  match e with
  | ComConnect | ComDisconnect | SqlConnect | SqlClose => true
  | _ => false
  end.

(** How often [e] occurs in a trace. *)
Definition count_event (e : event) (l : list event) : nat :=
  length (filter (λ x, x = e) l).

(** The states of a connection handle. *)
Inductive conn_state := Unopened | Open | Closed.

(** The state of the business-object connection of a context. *)
Definition com_state (st : state) : conn_state :=
  match ctx_COM st with
  | None => Unopened
  | Some c => if company_connected c then Open else Closed
  end.

(** The state of the database connection of a context. *)
Definition sql_state (st : state) : conn_state :=
  match ctx_SQL st with
  | None => Unopened
  | Some c => if conn_open c then Open else Closed
  end.

(** How many times a connection in a given state has been opened and
    closed. *)
Definition opens_closes (s : conn_state) : nat * nat :=
  match s with
  | Unopened => (0, 0)
  | Open => (1, 0)
  | Closed => (1, 1)
  end%nat.

(** The connection discipline: the trace agrees with the handles. *)
Definition conn_inv (st : state) : Prop :=
  (count_event ComConnect (trace st), count_event ComDisconnect (trace st))
    = opens_closes (com_state st) /\
  (count_event SqlConnect (trace st), count_event SqlClose (trace st))
    = opens_closes (sql_state st).

(** The discipline as a relation between the states before and after. *)
Definition keeps_inv (st st' : state) : Prop := conn_inv st -> conn_inv st'.

(** The trace only grows. *)
Definition trace_grows (st st' : state) : Prop :=
  trace st `prefix_of` trace st'.

(** No connection is closed between the two states. *)
Definition closes_nothing (st st' : state) : Prop :=
  count_event ComDisconnect (trace st') = count_event ComDisconnect (trace st) /\
  count_event SqlClose (trace st') = count_event SqlClose (trace st).

(** The list objects stay as they are between the two states. *)
Definition keeps_lists (st st' : state) : Prop :=
  heap st' = heap st /\
  getShipments_columns_default st' = getShipments_columns_default st.

(** Once the default list of [getShipments] is [['DocEntry']], it
    stays so. *)
Definition keeps_default (st st' : state) : Prop :=
  getShipments_columns_default st = ["DocEntry"] ->
  getShipments_columns_default st' = ["DocEntry"].


(** The column by which an order is looked up from its external id:
    the user-defined field the order names, else [NumAtCard]. *)
Definition external_id_column (o : gmap string pyval) : string :=
  match o !! "fe_order_id_udf" with
  | Some udf => py_str udf
  | None => "NumAtCard"
  end.

(** The statement of that lookup: one row, the document entry only. *)
Definition lookup_sql (col : string) : string :=
  "SELECT top 1 DocEntry FROM dbo.ORDR WHERE " +:+ col +:+ " = %(" +:+ col +:+ ")s".

(** ** Sample data *)

(** A world whose database answers every statement with [rows] and
    whose business objects answer every integer with [code]. *)
Definition sample_world (rows : list row) (code : Z) : world :=
  {| CompanyName := "SBODemoUS";
     cursor_rows := λ _ _ _, rows;
     com_int := λ _ _, code;
     GetLastErrorDescription := λ _, "Internal error (-10)";
     GetLastError := λ _, POther "(-10, 'Internal error')";
     time := λ _, POther "1400000000.12";
     py_float := λ v, Ok (POther (py_str v));
     py_Decimal := λ v, Ok (PDecimal (py_str v)) |}.

(** An order to cancel, known by its external id in [NumAtCard]. *)
Definition sample_cancel : gmap string pyval :=
  {["fe_order_id" := PInt 100000042]}.

(** A filter map with two entries, the second with an operator. *)
Definition sample_params : odict filter_dict :=
  [("NumAtCard", {["value" := PStr "100000042"]});
   ("DocStatus", <["op" := PStr "<>"]> {["value" := PStr "C"]})].

(** A filter map as a caller of [getShipments] would pass it. *)
Definition sample_shipment_params : odict filter_dict :=
  [("CardCode", {["value" := PStr "C20000"]})].

(** A contact as [getContactPersonCode] hands it to [insertContact]. *)
Definition sample_contact : gmap string pyval :=
  <["FirstName" := PStr "Ada"]> (<["LastName" := PStr "Lovelace"]>
  (<["E_MailL" := PStr "ada@example.com"]> (<["Tel1" := PStr "555-0100"]>
  {["Address" := PStr "12 St James Square, London"]}))).

(** A row that has every column the lookups of [insertOrder] read. *)
Definition sample_row : row :=
  <["DocEntry" := PInt 815]> (<["MainCurncy" := PStr "USD"]>
  {["cntctcode" := PInt 3]}).

(** A string of [n] letters. *)
Definition letters (n : nat) : string := str_repeat "a"%char n.

(** An order whose bill-to street address has 150 characters. *)
Definition sample_order : order :=
  {| o_fields :=
       list_to_map
         [("billto_telephone", PStr "555-0100");
          ("billto_address", PStr (letters 150));
          ("shipto_address", PStr "1 Main Street");
          ("doc_due_date", PStr "2014-05-13");
          ("card_code", PStr "C20000");
          ("billto_firstname", PStr "Ada");
          ("billto_lastname", PStr "Lovelace");
          ("billto_email", PStr "ada@example.com");
          ("fe_order_id", PInt 100000042);
          ("billto_city", PStr "London"); ("billto_country", PStr "GB");
          ("billto_state", PStr ""); ("billto_zipcode", PStr "SW1Y");
          ("shipto_city", PStr "London"); ("shipto_country", PStr "GB");
          ("shipto_county", PStr ""); ("shipto_state", PStr "");
          ("shipto_zipcode", PStr "SW1Y")];
     o_items :=
       Some [list_to_map
               [("itemcode", PStr "A00001"); ("quantity", PInt 2);
                ("price", PStr "9.90"); ("taxcode", PStr "EX");
                ("linetotal", PStr "19.80")]] |}.

(** Whether a string has no blank in it. *)
Fixpoint no_blank (s : string) : bool :=
  match s with
  | EmptyString => true
  | String c s' => negb (Ascii.eqb c " "%char) && no_blank s'
  end.

(** The name [insertContact] gives a contact (lines 209-210), from the
    two name parts and the text of the timestamp. *)
Definition contact_name (first last now : string) : string :=
  py_slice_to (first +:+ " " +:+ last) 36 +:+ " " +:+ now.

(** ** The adaptor's methods *)

Section Adaptor.
Context (W : world).

(** [SapB1ComAdaptor.__init__] *)
Definition SapB1ComAdaptor_init : M SapB1ComAdaptor :=
  emit ComConnect;;
  mret {| company_connected := true |}.


(** [MsSqlAdaptor.__init__] *)
Definition MsSqlAdaptor_init : M MsSqlAdaptor :=
  emit SqlConnect;;
  mret {| conn_open := true |}.


(** The property [SAPB1Adaptor.com_adaptor]. *)
Definition com_adaptor : M SapB1ComAdaptor :=
  st ← get;
  match ctx_COM st with
  | Some com => mret com
  | None =>
      com ← SapB1ComAdaptor_init;
      modify (set_ctx_COM (Some com));;
      emit (LogInfo ("Open SAPB1 connection for " +:+ CompanyName W));;
      mret com
  end.

(** The property [SAPB1Adaptor.sql_adaptor]. *)
Definition sql_adaptor : M MsSqlAdaptor :=
  st ← get;
  match ctx_SQL st with
  | Some sql => mret sql
  | None =>
      sql ← MsSqlAdaptor_init;
      modify (set_ctx_SQL (Some sql));;
      emit (LogInfo "Open SAPB1 DB connection");;
      mret sql
  end.


(** [cursor.execute(sql, args)], giving the rows the cursor then holds. *)
Definition cursor_execute (sql : string) (args : sqlargs) : M (list row) :=
  st ← get;
  emit (SqlExecute sql args);;
  mret (cursor_rows W (trace st) sql args).

(** [list(self.sql_adaptor.fetch_all(sql, *args, **kwargs))] *)
Definition fetch_all (sql : string) (args : list pyval)
    (kwargs : list (string * pyval)) : M (list row) :=
  sql_adaptor;;
  rows ← cursor_execute sql (execute_args args kwargs);
  mret (fetch_all_item <$> rows).

(** [self.sql_adaptor.fetchone(sql, *args)]: the first row or [None]. *)
Definition fetchone (sql : string) (args : list pyval) : M (option row) :=
  sql_adaptor;;
  rows ← cursor_execute sql (execute_args args []);
  mret (head rows).

(** [SAPB1Adaptor.getOrders] *)
Definition getOrders (num : Z) (columns : list string) (params : odict filter_dict)
  : M (list row) :=
  sql ← lift (getOrders_sql num columns params);
  sql_adaptor;;
  args ← lift (getOrders_args params);
  rows ← cursor_execute sql (ArgsDict args);
  mret (getOrders_order <$> rows).

(** [self.<name>]: only an attribute the object has can be read. *)
Definition self_getattr (name : string) : M unit :=
  if bool_decide (name ∈ SAPB1Adaptor_attributes)
  then mret tt
  else raise (AttributeError "SAPB1Adaptor" name).

(** Reading an integer property of a business object. *)
Definition com_read (property : string) : M Z :=
  st ← get;
  mret (com_int W (trace st) property).

(** Calling a business-object method that returns an integer code. *)
Definition com_call (method : string) (args : list pyval) : M Z :=
  st ← get;
  emit (ComCall method args);;
  mret (com_int W (trace st) method).

(** [str(time())] *)
Definition str_time : M string :=
  st ← get;
  mret (py_str (time W (trace st))).

(** [SAPB1Adaptor.getMainCurrency] *)
Definition getMainCurrency : M pyval :=
  r ← fetchone "SELECT MainCurncy FROM dbo.OADM" [];
  lift (subscript_row r "MainCurncy").

(** [SAPB1Adaptor.getContacts] *)
Definition getContacts (num : Z) (columns : list string) (cardCode : pyval)
    (contact : gmap string pyval) : M (list row) :=
  let cols := select_cols columns in
  let sql := "SELECT top " +:+ pretty num +:+ " " +:+ cols +:+ " FROM dbo.OCPR" in
  let params := <["cardcode" := cardCode]> (null_if_None <$> contact) in
  let sql := sql +:+ " WHERE " +:+
             py_join " AND "
               ((λ k, k +:+ " = %(" +:+ k +:+ ")s") <$> (map_to_list params).*1) in
  fetch_all sql [] [].

(** [SAPB1Adaptor.insertContact] *)
Definition insertContact (cardCode : pyval) (contact : gmap string pyval)
  : M pyval :=
  com_adaptor;;
  emit (ComCall "company.GetBusinessObject" [PStr "oBusinessPartners"]);;
  emit (ComCall "busPartner.GetByKey" [cardCode]);;
  current ← com_read "busPartner.ContactEmployees.Count";
  internalCode ← com_read "busPartner.ContactEmployees.InternalCode";
  let nextLine := if internalCode =? 0 then 0 else current in
  emit (ComCall "busPartner.ContactEmployees.Add" []);;
  emit (ComCall "busPartner.ContactEmployees.SetCurrentLine" [PInt nextLine]);;
  first ← lift (dict_item contact "FirstName" ≫= as_str);
  last ← lift (dict_item contact "LastName" ≫= as_str);
  now ← str_time;
  let name := contact_name first last now in
  emit (ComSet "busPartner.ContactEmployees.Name" (PStr name));;
  v ← lift (dict_item contact "FirstName");
  emit (ComSet "busPartner.ContactEmployees.FirstName" v);;
  v ← lift (dict_item contact "LastName");
  emit (ComSet "busPartner.ContactEmployees.LastName" v);;
  v ← lift (dict_item contact "Tel1");
  emit (ComSet "busPartner.ContactEmployees.Phone1" v);;
  v ← lift (dict_item contact "E_MailL");
  emit (ComSet "busPartner.ContactEmployees.E_Mail" v);;
  address ← lift (dict_item contact "Address");
  v ← lift (trimValue_cell address 100);
  emit (ComSet "busPartner.ContactEmployees.Address" v);;
  lRetCode ← com_call "busPartner.Update" [];
  (if negb (lRetCode =? 0)
   then self_getattr "company";;
        st ← get;
        let log := GetLastErrorDescription W (trace st) in
        emit (LogError log);;
        raise (Exception log)
   else mret tt);;
  first ← lift (dict_item contact "FirstName");
  last ← lift (dict_item contact "LastName");
  email ← lift (dict_item contact "E_MailL");
  let cntct : gmap string pyval :=
    <["E_MailL" := email]> (<["LastName" := last]> (<["FirstName" := first]>
      (<["name" := PStr name]> ∅))) in
  contacts ← getContacts 1 ["cntctcode"] cardCode cntct;
  c ← lift (list_item contacts 0);
  lift (dict_item c "cntctcode").

(** [SAPB1Adaptor.getContactPersonCode] *)
Definition getContactPersonCode (order : gmap string pyval) : M pyval :=
  first ← lift (dict_item order "billto_firstname");
  last ← lift (dict_item order "billto_lastname");
  email ← lift (dict_item order "billto_email");
  let contact : gmap string pyval :=
    <["E_MailL" := email]> (<["LastName" := last]> (<["FirstName" := first]> ∅)) in
  cardCode ← lift (dict_item order "card_code");
  contacts ← getContacts 1 ["cntctcode"] cardCode contact;
  contactCode ← (if (length contacts =? 1)%nat
                 then c ← lift (list_item contacts 0);
                      lift (dict_item c "cntctcode")
                 else mret PNone);
  match contactCode with
  | PNone =>
      a ← lift (dict_item order "billto_address" ≫= as_str);
      b ← lift (dict_item order "billto_city" ≫= as_str);
      c ← lift (dict_item order "billto_state" ≫= as_str);
      d ← lift (dict_item order "billto_zipcode" ≫= as_str);
      e ← lift (dict_item order "billto_country" ≫= as_str);
      let address := a +:+ ", " +:+ b +:+ ", " +:+ c +:+ " " +:+ d +:+ ", " +:+ e in
      let contact := <["Address" := PStr (trimValue address 100)]> contact in
      tel ← lift (dict_item order "billto_telephone");
      let contact := <["Tel1" := tel]> contact in
      cardCode ← lift (dict_item order "card_code");
      insertContact cardCode contact
  | _ => mret contactCode
  end.

(** [SAPB1Adaptor.getExpnsCode] *)
Definition getExpnsCode (expnsName : pyval) : M pyval :=
  sql_adaptor;;
  rows ← cursor_execute "SELECT ExpnsCode FROM dbo.OEXD WHERE ExpnsName = %s"
                        (ArgsValue expnsName);
  lift (subscript_row (head rows) "ExpnsCode").

(** [SAPB1Adaptor.getTrnspCode] *)
Definition getTrnspCode (trnspName : pyval) : M pyval :=
  r ← fetchone "SELECT TrnspCode FROM dbo.OSHP WHERE TrnspName = %s" [trnspName];
  lift (subscript_row r "TrnspCode").

(** [SAPB1Adaptor.getExpnsNames] *)
Definition getExpnsNames : M (list row) :=
  fetch_all "SELECT ExpnsName FROM dbo.OEXD" [] [].

(** [SAPB1Adaptor.getTrnspNames] *)
Definition getTrnspNames : M (list row) :=
  fetch_all "SELECT TrnspName FROM dbo.OSHP" [] [].

(** [SAPB1Adaptor.getPayMethCods] *)
Definition getPayMethCods : M (list row) :=
  fetch_all "SELECT PayMethCod from opym" [] [].

(** [SAPB1Adaptor.getTaxCodes] *)
Definition getTaxCodes : M (list row) :=
  fetch_all "SELECT Code, Name, Rate from osta" [] [].

(** The order lines of [insertOrder] (lines 349-358), from index [i] on. *)
Fixpoint add_lines (i : Z) (items : list (gmap string pyval)) : M unit :=
  match items with
  | [] => mret tt
  | item :: rest =>
      emit (ComCall "order.Lines.Add" []);;
      emit (ComCall "order.Lines.SetCurrentLine" [PInt i]);;
      v ← lift (dict_item item "itemcode");
      emit (ComSet "order.Lines.ItemCode" v);;
      v ← lift (dict_item item "quantity" ≫= py_float W);
      emit (ComSet "order.Lines.Quantity" v);;
      v ← lift (dict_item item "price" ≫= py_Decimal W);
      emit (ComSet "order.Lines.Price" v);;
      v ← lift (dict_item item "taxcode");
      emit (ComSet "order.Lines.TaxCode" v);;
      v ← lift (dict_item item "linetotal");
      emit (ComSet "order.Lines.LineTotal" v);;
      add_lines (i + 1) rest
  end.

(** [order.<field> = o[key]] *)
Definition assign (field : string) (o : gmap string pyval) (key : string)
  : M unit :=
  v ← lift (dict_item o key);
  emit (ComSet field v).

(** [SAPB1Adaptor.insertOrder] *)
Definition insertOrder (o : order) : M pyval :=
  o ← lift (insertOrder_trim o);
  let f := o_fields o in
  com_adaptor;;
  emit (ComCall "company.GetBusinessObject" [PStr "oOrders"]);;
  assign "order.DocDueDate" f "doc_due_date";;
  assign "order.CardCode" f "card_code";;
  first ← lift (dict_item f "billto_firstname" ≫= as_str);
  last ← lift (dict_item f "billto_lastname" ≫= as_str);
  let name := py_slice_to (first +:+ " " +:+ last) 50 in
  emit (ComSet "order.CardName" (PStr name));;
  v ← getMainCurrency;
  emit (ComSet "order.DocCurrency" v);;
  v ← getContactPersonCode f;
  emit (ComSet "order.ContactPersonCode" v);;
  (if has_key f "expenses_freightname"
   then n ← lift (dict_item f "expenses_freightname");
        v ← getExpnsCode n;
        emit (ComSet "order.Expenses.ExpenseCode" v);;
        assign "order.Expenses.LineTotal" f "expenses_linetotal";;
        assign "order.Expenses.TaxCode" f "expenses_taxcode"
   else mret tt);;
  (if has_key f "discount_percent"
   then assign "order.DiscountPercent" f "discount_percent"
   else mret tt);;
  (if has_key f "transport_name"
   then n ← lift (dict_item f "transport_name");
        v ← getTrnspCode n;
        emit (ComSet "order.TransportationCode" v)
   else mret tt);;
  (if has_key f "payment_method"
   then assign "order.PaymentMethod" f "payment_method"
   else mret tt);;
  (if has_key f "fe_order_id_udf"
   then udf ← lift (dict_item f "fe_order_id_udf");
        id ← lift (dict_item f "fe_order_id");
        emit (ComCall "order.UserFields.Fields.Item" [udf]);;
        emit (ComSet "order.UserFields.Fields.Item.Value" (PStr (py_str id)))
   else id ← lift (dict_item f "fe_order_id");
        emit (ComSet "order.NumAtCard" (PStr (py_str id))));;
  assign "order.AddressExtension.BillToCity" f "billto_city";;
  assign "order.AddressExtension.BillToCountry" f "billto_country";;
  assign "order.AddressExtension.BillToCounty" f "billto_country";;
  assign "order.AddressExtension.BillToState" f "billto_state";;
  assign "order.AddressExtension.BillToStreet" f "billto_address";;
  assign "order.AddressExtension.BillToZipCode" f "billto_zipcode";;
  assign "order.AddressExtension.ShipToCity" f "shipto_city";;
  assign "order.AddressExtension.ShipToCountry" f "shipto_country";;
  assign "order.AddressExtension.ShipToCounty" f "shipto_county";;
  assign "order.AddressExtension.ShipToState" f "shipto_state";;
  assign "order.AddressExtension.ShipToStreet" f "shipto_address";;
  assign "order.AddressExtension.ShipToZipCode" f "shipto_zipcode";;
  items ← lift (order_items o);
  add_lines 0 items;;
  lRetCode ← com_call "order.Add" [];
  if negb (lRetCode =? 0)
  then com_adaptor;;
       st ← get;
       let error := py_str (GetLastError W (trace st)) in
       emit (LogError error);;
       raise (Exception error)
  else params ← lift (external_id_params f);
       orders ← getOrders 1 ["DocEntry"] params;
       first ← lift (list_item orders 0);
       lift (dict_item first "DocEntry").

(** [SAPB1Adaptor.cancelOrder] *)
Definition cancelOrder (o : gmap string pyval) : M pyval :=
  com_adaptor;;
  emit (ComCall "company.GetBusinessObject" [PStr "oOrders"]);;
  params ← lift (external_id_params o);
  orders ← getOrders 1 ["DocEntry"] params;
  match orders with
  | first :: _ =>
      boOrderId ← lift (dict_item first "DocEntry");
      emit (ComCall "order.GetByKey" [boOrderId]);;
      lRetCode ← com_call "order.Cancel" [];
      if negb (lRetCode =? 0)
      then self_getattr "company";;
           st ← get;
           let error := py_str (GetLastError W (trace st)) in
           self_getattr "logger";;
           emit (LogError error);;
           raise (Exception error)
      else mret boOrderId
  | [] =>
      id ← lift (dict_item o "fe_order_id");
      raise (Exception ("Order " +:+ py_str id +:+ " is not found."))
  end.

(** [SAPB1Adaptor._getShipmentItems] *)
Definition _getShipmentItems (shipmentId : pyval) (columns : list string)
  : M (list row) :=
  let cols := select_cols columns in
  let sql := "SELECT " +:+ cols +:+ " FROM dbo.DLN1" in
  let params : odict pyval := [("DocEntry", shipmentId)] in
  let sql :=
    if (0 <? length params)%nat
    then sql +:+ " WHERE " +:+
         py_join " AND "
           ((λ k, k +:+ " = %(" +:+ k +:+ ")s") <$> odict_keys params)
    else sql in
  fetch_all sql [] [].

(** The loop of [getShipments] (lines 429-431). *)
Fixpoint attach_items (itemColumns : list string) (shipments : list row)
  : M (list shipment) :=
  match shipments with
  | [] => mret []
  | s :: rest =>
      shipmentId ← lift (dict_item s "DocEntry");
      items ← _getShipmentItems shipmentId itemColumns;
      rest' ← attach_items itemColumns rest;
      mret ({| shipment_header := delete "items" s;
               shipment_items := items |} :: rest')
  end.

(** [getShipments] from its third statement on (lines 420-432). *)
Definition getShipments_query (num : Z) (columns : option nat)
    (params : odict filter_dict) (itemColumns : list string) : M (list shipment) :=
  cs ← read_list columns;
  let cols := select_cols cs in
  ops ← lift (build_ops params);
  let sql := "SELECT top " +:+ pretty num +:+ " " +:+ cols +:+ " FROM dbo.ODLN" in
  sql ← lift (add_where sql ops params);
  p ← lift (getShipments_p params);
  shipments ← fetch_all sql [] p;
  attach_items itemColumns shipments.

(** [SAPB1Adaptor.getShipments].  [columns] is the list object the
    caller passes: [None] when the argument is left out, which makes
    it the default list object of the function. *)
Definition getShipments (num : Z) (columns : option nat)
    (params : odict filter_dict) (itemColumns : list string) : M (list shipment) :=
  ensure_DocEntry columns;;
  getShipments_query num columns params itemColumns.

(** [SAPB1Adaptor.getItems] *)
Definition getItems (limit : Z) (columns whs code : option string)
  : M (list row) :=
  fetch_all (getItems_sql limit columns whs code) [] [].

(** [SAPB1Adaptor.getPrices] *)
Definition getPrices (limit : Z) (columns whs code : option string)
  : M (list row) :=
  fetch_all (getPrices_sql limit columns whs code) [] [].

(** [SAPB1Adaptor.info]; of the data it returns, the company name. *)
Definition info : M string :=
  com_adaptor;;
  mret (CompanyName W).

(** A call of a public operation of the adaptor, with its arguments. *)
Inductive call :=
| Call_info
| Call_getOrders (num : Z) (columns : list string) (params : odict filter_dict)
| Call_getMainCurrency
| Call_getContacts (num : Z) (columns : list string) (cardCode : pyval)
    (contact : gmap string pyval)
| Call_insertContact (cardCode : pyval) (contact : gmap string pyval)
| Call_getContactPersonCode (order : gmap string pyval)
| Call_getExpnsCode (expnsName : pyval)
| Call_getTrnspCode (trnspName : pyval)
| Call_getExpnsNames
| Call_getTrnspNames
| Call_getPayMethCods
| Call_getTaxCodes
| Call_insertOrder (o : order)
| Call_cancelOrder (o : gmap string pyval)
| Call_getShipments (num : Z) (columns : option nat) (params : odict filter_dict)
    (itemColumns : list string)
| Call_getItems (limit : Z) (columns whs code : option string)
| Call_getPrices (limit : Z) (columns whs code : option string).

(** Running a call for its effects. *)
Definition run_call (c : call) : M unit :=
  match c with
  | Call_info => info;; mret tt
  | Call_getOrders num columns params => getOrders num columns params;; mret tt
  | Call_getMainCurrency => getMainCurrency;; mret tt
  | Call_getContacts num columns cardCode contact =>
      getContacts num columns cardCode contact;; mret tt
  | Call_insertContact cardCode contact => insertContact cardCode contact;; mret tt
  | Call_getContactPersonCode o => getContactPersonCode o;; mret tt
  | Call_getExpnsCode n => getExpnsCode n;; mret tt
  | Call_getTrnspCode n => getTrnspCode n;; mret tt
  | Call_getExpnsNames => getExpnsNames;; mret tt
  | Call_getTrnspNames => getTrnspNames;; mret tt
  | Call_getPayMethCods => getPayMethCods;; mret tt
  | Call_getTaxCodes => getTaxCodes;; mret tt
  | Call_insertOrder o => insertOrder o;; mret tt
  | Call_cancelOrder o => cancelOrder o;; mret tt
  | Call_getShipments num columns params itemColumns =>
      getShipments num columns params itemColumns;; mret tt
  | Call_getItems limit columns whs code => getItems limit columns whs code;; mret tt
  | Call_getPrices limit columns whs code => getPrices limit columns whs code;; mret tt
  end.

(** The state a series of calls leaves, each call running whether the
    one before it returned or raised (the host application decides
    what to do with a failure; every prefix of a series is a series). *)
Definition run_calls (calls : list call) (st : state) : state :=
  foldl (λ st c, (run_call c st).2) st calls.


End Adaptor.

(** ** Notions used to state further properties *)

(** The arguments of the [SetCurrentLine] calls made on the lines of
    an order, in the order of the calls. *)
Definition current_lines (tr : list event) : list (list pyval) :=
  omap (λ e, match e with
             | ComCall m args =>
                 if decide (m = "order.Lines.SetCurrentLine")
                 then Some args else None
             | _ => None
             end) tr.

(** An order line that has the five entries [insertOrder] reads and
    whose quantity and price convert. *)
Definition line_ok (W : world) (item : gmap string pyval) : Prop :=
  is_Some (item !! "itemcode") /\
  (exists q v, item !! "quantity" = Some q /\ py_float W q = Ok v) /\
  (exists p v, item !! "price" = Some p /\ py_Decimal W p = Ok v) /\
  is_Some (item !! "taxcode") /\
  is_Some (item !! "linetotal").

(** Whether an event is a statement sent to the database. *)
Definition is_statement (e : event) : bool :=
  match e with
  | SqlExecute _ _ => true
  | _ => false
  end.

(** The statements sent to the database, in order. *)
Definition statements (tr : list event) : list event :=
  filter (λ e, is_statement e = true) tr.

(** A cell that is a text. *)
Definition is_text (v : pyval) : Prop := exists s, v = PStr s.


(** Several events, one after the other. *)
Definition add_events (es : list event) (st : state) : state :=
  foldl (λ st e, add_event e st) st es.

(** The calls that only read from the database. *)
Definition is_read_call (c : call) : bool :=
  match c with
  | Call_getOrders _ _ _ | Call_getMainCurrency | Call_getContacts _ _ _ _
  | Call_getExpnsCode _ | Call_getTrnspCode _ | Call_getExpnsNames
  | Call_getTrnspNames | Call_getPayMethCods | Call_getTaxCodes
  | Call_getShipments _ _ _ _ | Call_getItems _ _ _ _
  | Call_getPrices _ _ _ _ => true
  | _ => false
  end.

(** The business-object connection is left as it is. *)
Definition keeps_com (st st' : state) : Prop :=
  ctx_COM st' = ctx_COM st /\
  count_event ComConnect (trace st') = count_event ComConnect (trace st).

(** The calls that leave every list object as it is: all but
    [getShipments], and [getShipments] when the list it is given
    holds ['DocEntry'] already. *)
Definition leaves_lists (c : call) (st : state) : Prop :=
  match c with
  | Call_getShipments _ columns _ _ =>
      "DocEntry" ∈ match columns with
                   | None => getShipments_columns_default st
                   | Some a => default [] (heap st !! a)
                   end
  | _ => True
  end.

(** * Properties *)

Lemma str_app_assoc (s1 s2 s3 : string) :
  (s1 +:+ s2) +:+ s3 = s1 +:+ (s2 +:+ s3).
Proof.
  induction s1 as [|c s1 IH]; [done|].
  change (String c ((s1 +:+ s2) +:+ s3) = String c (s1 +:+ (s2 +:+ s3))).
  by f_equal.
Qed.

Lemma str_app_nil_r (s : string) : s +:+ "" = s.
Proof.
  induction s as [|c s IH]; [done|].
  change (String c (s +:+ "") = String c s). by f_equal.
Qed.

Lemma str_app_length (s1 s2 : string) :
  String.length (s1 +:+ s2) = (String.length s1 + String.length s2)%nat.
Proof. induction s1 as [|c s1 IH]; simpl; [done|]. by f_equal. Qed.

Lemma str_take_length (n : nat) (s : string) :
  String.length (str_take n s) = Nat.min n (String.length s).
Proof.
  revert s. induction n as [|n IH]; intros [|c s]; simpl; auto.
Qed.

Lemma str_take_all (n : nat) (s : string) :
  (String.length s <= n)%nat -> str_take n s = s.
Proof.
  revert s. induction n as [|n IH]; intros [|c s]; simpl; intros H;
    try reflexivity; try lia.
  f_equal. apply IH. lia.
Qed.

Lemma str_take_prefix (n : nat) (s : string) :
  exists rest, s = str_take n s +:+ rest.
Proof.
  revert s. induction n as [|n IH]; intros [|c s]; simpl.
  - exists "". reflexivity.
  - exists (String c s). reflexivity.
  - exists "". reflexivity.
  - destruct (IH s) as [r Hr]. exists r.
    change (String c s = String c (str_take n s +:+ r)). by f_equal.
Qed.

(** A value longer than a positive cap comes back one character short
    of the cap. *)
Lemma trimValue_long_length (value : string) (maxLength : Z) :
  1 <= maxLength ->
  maxLength < Z.of_nat (String.length value) ->
  Z.of_nat (String.length (trimValue value maxLength)) = maxLength - 1.
Proof.
  intros Hpos Hlong. unfold trimValue, py_slice_to.
  destruct (Z.gtb_spec (Z.of_nat (String.length value)) maxLength) as [_|Hle];
    [|lia].
  destruct (Z.ltb_spec (maxLength - 1) 0) as [Hneg|_]; [lia|].
  rewrite str_take_length. lia.
Qed.

Lemma trimValue_short (value : string) (maxLength : Z) :
  Z.of_nat (String.length value) <= maxLength ->
  trimValue value maxLength = value.
Proof.
  intros Hle. unfold trimValue.
  destruct (Z.gtb_spec (Z.of_nat (String.length value)) maxLength); [lia|done].
Qed.

(** ** Row normalisation *)

Lemma fetch_all_item_fmap (r : row) :
  fetch_all_item r = fetch_all_value <$> r.
Proof.
  unfold fetch_all_item.
  induction r as [|k v r Hk Hfirst IH] using map_first_key_ind.
  - by rewrite map_fold_empty, fmap_empty.
  - rewrite map_fold_insert_first_key by done.
    by rewrite IH, fmap_insert.
Qed.

Lemma getOrders_order_fmap (r : row) :
  getOrders_order r = getOrders_value <$> r.
Proof.
  unfold getOrders_order.
  induction r as [|k v r Hk Hfirst IH] using map_first_key_ind.
  - by rewrite map_fold_empty, fmap_empty.
  - rewrite map_fold_insert_first_key by done.
    by rewrite IH, fmap_insert.
Qed.



(** ** The query builder *)

Lemma odict_lookup_NoDup {V} (d : odict V) (k : string) (v : V) :
  NoDup (odict_keys d) -> (k, v) ∈ d -> odict_lookup d k = Some v.
Proof.
  unfold odict_keys. induction d as [|[k' v'] d IH]; simpl; intros Hnd Hin.
  - by apply elem_of_nil in Hin.
  - apply NoDup_cons in Hnd as [Hk' Hnd].
    apply elem_of_cons in Hin as [Heq|Hin].
    + injection Heq as -> ->. by rewrite decide_True.
    + destruct (decide (k' = k)) as [->|_]; [|by apply IH].
      exfalso. apply Hk'. apply list_elem_of_fmap. by exists (k, v).
Qed.

Lemma odict_set_fresh {V} (d : odict V) (k : string) (v : V) :
  k ∉ odict_keys d -> odict_set d k v = d ++ [(k, v)].
Proof.
  unfold odict_keys. induction d as [|[k' v'] d IH]; simpl; [done|].
  intros Hk. apply not_elem_of_cons in Hk as [Hne Hk].
  rewrite decide_False by done. by rewrite IH.
Qed.


Lemma filter_op_default (f : filter_dict) : filter_op f = Ok (op_or_eq f).
Proof.
  unfold filter_op, op_or_eq, dict_item. case_bool_decide as Hdom.
  - apply not_elem_of_dom in Hdom. by rewrite Hdom.
  - apply elem_of_dom in Hdom as [op Hop]. by rewrite Hop.
Qed.

Lemma build_ops_from (params pre suf : odict filter_dict) :
  params = pre ++ suf ->
  NoDup (odict_keys params) ->
  foldl (build_ops_step params) (Ok (prod_map id op_or_eq <$> pre))
        (odict_keys suf)
  = Ok (prod_map id op_or_eq <$> params).
Proof.
  revert pre. induction suf as [|[k f] suf IH]; intros pre -> Hnd.
  - by rewrite app_nil_r.
  - simpl.
    assert (build_ops_step (pre ++ (k, f) :: suf)
              (Ok (prod_map id op_or_eq <$> pre)) k
            = Ok (prod_map id op_or_eq <$> (pre ++ [(k, f)]))) as ->.
    2:{ apply (IH (pre ++ [(k, f)])); [by rewrite <- app_assoc|done]. }
    unfold build_ops_step. simpl. unfold odict_item.
    rewrite (odict_lookup_NoDup _ k f) by (done || set_solver).
    simpl. rewrite filter_op_default. simpl.
    rewrite odict_set_fresh; [by rewrite fmap_app|].
    unfold odict_keys in *. rewrite <- list_fmap_compose.
    rewrite fmap_app in Hnd. apply NoDup_app in Hnd as (_ & Hdisj & _).
    intros Hin. apply (Hdisj k).
    + apply list_elem_of_fmap in Hin as [[k0 f0] [-> Hin]].
      apply list_elem_of_fmap. by exists (k0, f0).
    + simpl. left.
Qed.

Lemma build_ops_closed (params : odict filter_dict) :
  NoDup (odict_keys params) ->
  build_ops params = Ok (prod_map id op_or_eq <$> params).
Proof.
  intros Hnd. unfold build_ops. by apply (build_ops_from params [] params).
Qed.

Lemma where_clause_found (ops : odict pyval) (k : string) (f : filter_dict) :
  odict_lookup ops k = Some (op_or_eq f) ->
  where_clause ops k = Ok (clause_of (k, f)).
Proof. intros Hk. unfold where_clause, odict_item. by rewrite Hk. Qed.

Lemma where_clauses_from (ops : odict pyval) (suf : odict filter_dict) :
  (forall k f, (k, f) ∈ suf -> odict_lookup ops k = Some (op_or_eq f)) ->
  mapM (where_clause ops) (odict_keys suf) = Ok (clause_of <$> suf).
Proof.
  induction suf as [|[k f] suf IH]; intros Hops; [done|].
  change (mapM (where_clause ops) (odict_keys ((k, f) :: suf)))
    with (y ← where_clause ops k;
          ys ← mapM (where_clause ops) (odict_keys suf);
          mret (y :: ys)).
  rewrite (where_clause_found ops k f) by (apply Hops; left).
  rewrite IH; [done|]. intros k' f' Hin. apply Hops. by right.
Qed.

Lemma odict_lookup_fmap {V V'} (g : V -> V') (d : odict V) (k : string) :
  odict_lookup (prod_map id g <$> d) k = g <$> odict_lookup d k.
Proof.
  induction d as [|[k' v'] d IH]; simpl; [done|].
  by destruct (decide (k' = k)).
Qed.

Lemma where_clauses_closed (params : odict filter_dict) :
  NoDup (odict_keys params) ->
  where_clauses (prod_map id op_or_eq <$> params) params
  = Ok (clause_of <$> params).
Proof.
  intros Hnd. apply where_clauses_from. intros k f Hin.
  rewrite odict_lookup_fmap.
  by rewrite (odict_lookup_NoDup params k f).
Qed.

(** The statement of [getOrders], in closed form. *)
Lemma getOrders_sql_closed (num : Z) (columns : list string)
    (params : odict filter_dict) :
  NoDup (odict_keys params) ->
  getOrders_sql num columns params
  = Ok (("SELECT top " +:+ pretty num +:+ " " +:+ select_cols columns +:+
         " FROM dbo.ORDR") +:+
        match params with
        | [] => ""
        | _ => " WHERE " +:+ py_join " AND " (clause_of <$> params)
        end).
Proof.
  intros Hnd. unfold getOrders_sql.
  rewrite build_ops_closed by done. simpl. unfold add_where.
  destruct params as [|kf params].
  - simpl. unfold mret, result_ret. f_equal.
    by rewrite str_app_nil_r.
  - change (0 <? length (kf :: params))%nat with true. cbv iota.
    rewrite where_clauses_closed by done. simpl.
    unfold mret, result_ret. by f_equal.
Qed.

Lemma getOrders_args_from (params pre suf : odict filter_dict) :
  params = pre ++ suf ->
  NoDup (odict_keys params) ->
  Forall (λ kf, is_Some (kf.2 !! "value")) suf ->
  foldl (getOrders_args_step params)
        (Ok (prod_map id (λ f : filter_dict, default PNone (f !! "value")) <$> pre))
        (odict_keys suf)
  = Ok (prod_map id (λ f : filter_dict, default PNone (f !! "value")) <$> params).
Proof.
  revert pre. induction suf as [|[k f] suf IH]; intros pre -> Hnd Hval.
  - by rewrite app_nil_r.
  - apply Forall_cons in Hval as [[v Hv] Hval]. simpl in Hv. simpl.
    assert (getOrders_args_step (pre ++ (k, f) :: suf)
              (Ok (prod_map id (λ f : filter_dict, default PNone (f !! "value"))
                     <$> pre)) k
            = Ok (prod_map id (λ f : filter_dict, default PNone (f !! "value"))
                    <$> (pre ++ [(k, f)]))) as ->.
    2:{ apply (IH (pre ++ [(k, f)])); [by rewrite <- app_assoc|done|done]. }
    unfold getOrders_args_step. simpl. unfold odict_item.
    rewrite (odict_lookup_NoDup _ k f) by (done || set_solver).
    simpl. unfold dict_item. rewrite Hv. simpl.
    rewrite odict_set_fresh; [by rewrite fmap_app; simpl; rewrite Hv|].
    unfold odict_keys in *. rewrite <- list_fmap_compose.
    rewrite fmap_app in Hnd. apply NoDup_app in Hnd as (_ & Hdisj & _).
    intros Hin. apply (Hdisj k).
    + apply list_elem_of_fmap in Hin as [[k0 f0] [-> Hin]].
      apply list_elem_of_fmap. by exists (k0, f0).
    + simpl. left.
Qed.

(** The parameter mapping of [getOrders], in closed form. *)
Lemma getOrders_args_closed (params : odict filter_dict) :
  NoDup (odict_keys params) ->
  Forall (λ kf, is_Some (kf.2 !! "value")) params ->
  getOrders_args params
  = Ok (prod_map id (λ f : filter_dict, default PNone (f !! "value")) <$> params).
Proof.
  intros Hnd Hval. unfold getOrders_args.
  by apply (getOrders_args_from params [] params).
Qed.

(** ** Running the adaptor's monad *)

Lemma bind_ok {A B} (m : M A) (k : A -> M B) (st st' : state) (a : A) :
  m st = (Ok a, st') -> (m ≫= k) st = k a st'.
Proof. intros Hm. unfold mbind, M_bind. by rewrite Hm. Qed.

Lemma bind_raise {A B} (m : M A) (k : A -> M B) (st st' : state) (e : pyexn) :
  m st = (Raise e, st') -> (m ≫= k) st = (Raise e, st').
Proof. intros Hm. unfold mbind, M_bind. by rewrite Hm. Qed.

Ltac run_M :=
  unfold mbind, M_bind, mret, M_ret, lift, get, emit, modify, raise; simpl.

(** [sql_adaptor] never raises and leaves the rest of the state alone. *)
Lemma sql_adaptor_run (st : state) :
  exists a st', sql_adaptor st = (Ok a, st') /\
    ctx_COM st' = ctx_COM st /\
    ctx_SQL st' = Some a /\
    heap st' = heap st /\
    getShipments_columns_default st' = getShipments_columns_default st.
Proof.
  unfold sql_adaptor. run_M. destruct (ctx_SQL st) as [a|] eqn:Hsql.
  - exists a, st. done.
  - eexists _, _. split; [reflexivity|]. done.
Qed.

Lemma com_adaptor_run (W : world) (st : state) :
  exists a st', com_adaptor W st = (Ok a, st') /\
    ctx_SQL st' = ctx_SQL st /\
    ctx_COM st' = Some a /\
    heap st' = heap st /\
    getShipments_columns_default st' = getShipments_columns_default st.
Proof.
  unfold com_adaptor. run_M. destruct (ctx_COM st) as [a|] eqn:Hcom.
  - exists a, st. done.
  - eexists _, _. split; [reflexivity|]. done.
Qed.

(** What [getOrders] does once its statement and parameter mapping are
    built: it hands the two, separately, to the cursor. *)
Lemma getOrders_run (W : world) (num : Z) (columns : list string)
    (params : odict filter_dict) (sql : string) (args : odict pyval) (st : state) :
  getOrders_sql num columns params = Ok sql ->
  getOrders_args params = Ok args ->
  getOrders W num columns params st
  = (Ok (getOrders_order
           <$> cursor_rows W (trace (sql_adaptor st).2) sql (ArgsDict args)),
     add_event (SqlExecute sql (ArgsDict args)) (sql_adaptor st).2).
Proof.
  intros Hsql Hargs. unfold getOrders. rewrite Hsql, Hargs.
  destruct (sql_adaptor_run st) as (a & st' & Hrun & _).
  unfold cursor_execute. run_M. by rewrite Hrun.
Qed.

Lemma same_ops_keys (params params' : odict filter_dict) :
  Forall2 (λ kf kf', kf'.1 = kf.1 /\ kf'.2 !! "op" = kf.2 !! "op")
          params params' ->
  odict_keys params' = odict_keys params.
Proof.
  unfold odict_keys.
  induction 1 as [|[k f] [k' f'] l l' [Hk _] _ IH]; [done|].
  rewrite !fmap_cons. simpl in *. by f_equal.
Qed.

Lemma same_ops_clauses (params params' : odict filter_dict) :
  Forall2 (λ kf kf', kf'.1 = kf.1 /\ kf'.2 !! "op" = kf.2 !! "op")
          params params' ->
  clause_of <$> params' = clause_of <$> params.
Proof.
  induction 1 as [|[k f] [k' f'] l l' [Hk Hop] _ IH]; [done|].
  rewrite !fmap_cons. simpl in *. f_equal; [|done].
  unfold clause_of, op_or_eq. simpl. by rewrite Hk, Hop.
Qed.

(** C6. The order query builder: with an empty filter map the statement
    is the bare SELECT, without WHERE; with a non-empty one it carries
    one [column operator %(column)s] clause per key, in key order,
    joined by AND, the operator being ['='] when the filter has no
    ['op']; the values go to the parameter mapping only: the mapping
    holds them key by key, the cursor receives statement and mapping
    separately, and changing the values leaves the statement as it is. *)
Theorem getOrders_query_builder (num : Z) (columns : list string)
    (params : odict filter_dict) :
  NoDup (odict_keys params) ->
  Forall (λ kf, is_Some (kf.2 !! "value")) params ->
  let base := "SELECT top " +:+ pretty num +:+ " " +:+ select_cols columns +:+
              " FROM dbo.ORDR" in
  (params = [] -> getOrders_sql num columns params = Ok base) /\
  (params ≠ [] ->
   getOrders_sql num columns params
   = Ok (base +:+ " WHERE " +:+ py_join " AND " (clause_of <$> params))) /\
  length (clause_of <$> params) = length params /\
  (exists sql args,
     getOrders_sql num columns params = Ok sql /\
     getOrders_args params = Ok args /\
     args.*1 = odict_keys params /\
     Forall2 (λ kf a, kf.2 !! "value" = Some a.2) params args /\
     forall (W : world) (st : state),
       trace (getOrders W num columns params st).2
       = trace (sql_adaptor st).2 ++ [SqlExecute sql (ArgsDict args)]) /\
  (forall params' : odict filter_dict,
     Forall2 (λ kf kf', kf'.1 = kf.1 /\ kf'.2 !! "op" = kf.2 !! "op")
             params params' ->
     getOrders_sql num columns params' = getOrders_sql num columns params).
Proof.
  intros Hnd Hval base.
  pose proof (getOrders_sql_closed num columns params Hnd) as Hsql.
  pose proof (getOrders_args_closed params Hnd Hval) as Hargs.
  split; [|split; [|split; [|split]]].
  - intros ->. rewrite Hsql. by rewrite str_app_nil_r.
  - intros Hne. rewrite Hsql. by destruct params.
  - by rewrite length_fmap.
  - eexists _, _. split; [exact Hsql|]. split; [exact Hargs|].
    split; [|split].
    + unfold odict_keys. rewrite <- list_fmap_compose.
      apply list_fmap_ext. by intros i [k f].
    + clear Hsql Hargs Hnd. induction params as [|[k f] params IH]; simpl.
      * constructor.
      * apply Forall_cons in Hval as [[v Hv] Hval]. simpl in Hv.
        constructor; [simpl; by rewrite Hv|by apply IH].
    + intros W st. by rewrite (getOrders_run W _ _ _ _ _ st Hsql Hargs).
  - intros params' Hsame.
    pose proof (same_ops_keys params params' Hsame) as Hkeys.
    pose proof (same_ops_clauses params params' Hsame) as Hclauses.
    rewrite Hsql, (getOrders_sql_closed num columns params') by by rewrite Hkeys.
    rewrite Hclauses. by destruct Hsame.
Qed.

(** ** What every operation preserves

    A relation between the state before and the state after that is a
    preorder, holds across every event other than opening or closing
    a connection, across the two accessors and across
    [ensure_DocEntry], holds across every operation of the adaptor. *)
Section Steps.
Context (W : world) (R : relation state) `{!PreOrder R}.
Hypothesis R_event :
  forall e st, is_connection_event e = false -> R st (add_event e st).
Hypothesis R_com : steps R (com_adaptor W).
Hypothesis R_sql : steps R sql_adaptor.
Hypothesis R_ensure : forall columns, steps R (ensure_DocEntry columns).

Lemma steps_ret {A} (a : A) : steps R (mret a).
Proof. intros st. reflexivity. Qed.

Lemma steps_lift {A} (r : result A) : steps R (lift r).
Proof. intros st. reflexivity. Qed.

Lemma steps_raise {A} (e : pyexn) : steps R (raise (A:=A) e).
Proof. intros st. reflexivity. Qed.

Lemma steps_get : steps R get.
Proof. intros st. reflexivity. Qed.

Lemma steps_emit (e : event) : is_connection_event e = false -> steps R (emit e).
Proof. intros He st. by apply R_event. Qed.

Lemma steps_bind {A B} (m : M A) (k : A -> M B) :
  steps R m -> (forall a, steps R (k a)) -> steps R (m ≫= k).
Proof.
  intros Hm Hk st. unfold mbind, M_bind.
  specialize (Hm st). destruct (m st) as [[a|e] st']; simpl in *; [|done].
  etrans; [exact Hm|apply Hk].
Qed.

Ltac step :=
  lazymatch goal with
  | |- steps _ (mret _) => apply steps_ret
  | |- steps _ (lift _) => apply steps_lift
  | |- steps _ (raise _) => apply steps_raise
  | |- steps _ get => apply steps_get
  | |- steps _ (emit _) => apply steps_emit; reflexivity
  | |- steps _ (com_adaptor _) => apply R_com
  | |- steps _ sql_adaptor => apply R_sql
  | |- steps _ (ensure_DocEntry _) => apply R_ensure
  | |- steps _ (_ ≫= _) => apply steps_bind; [|intros ?]
  | |- steps _ (if ?b then _ else _) => destruct b
  | |- steps _ (match ?x with _ => _ end) => destruct x
  | |- steps _ (let _ := _ in _) => cbv zeta
  end.

Ltac steps_auto := repeat (first [assumption | step]).

Lemma steps_com_read (p : string) : steps R (com_read W p).
Proof. unfold com_read. steps_auto. Qed.

Lemma steps_com_call (m : string) (args : list pyval) :
  steps R (com_call W m args).
Proof. unfold com_call. steps_auto. Qed.

Lemma steps_str_time : steps R (str_time W).
Proof. unfold str_time. steps_auto. Qed.

Lemma steps_self_getattr (name : string) : steps R (self_getattr name).
Proof. unfold self_getattr. steps_auto. Qed.

Lemma steps_read_list (ref : option nat) : steps R (read_list ref).
Proof. unfold read_list. steps_auto. Qed.

Lemma steps_cursor_execute (sql : string) (args : sqlargs) :
  steps R (cursor_execute W sql args).
Proof. unfold cursor_execute. steps_auto. Qed.

Lemma steps_fetch_all (sql : string) (args : list pyval)
    (kwargs : list (string * pyval)) :
  steps R (fetch_all W sql args kwargs).
Proof. unfold fetch_all. steps_auto. apply steps_cursor_execute. Qed.

Lemma steps_fetchone (sql : string) (args : list pyval) :
  steps R (fetchone W sql args).
Proof. unfold fetchone. steps_auto. apply steps_cursor_execute. Qed.

Lemma steps_getOrders (num : Z) (columns : list string)
    (params : odict filter_dict) :
  steps R (getOrders W num columns params).
Proof. unfold getOrders. steps_auto. apply steps_cursor_execute. Qed.

Create HintDb steps.

Local Hint Resolve steps_com_read steps_com_call steps_str_time
  steps_self_getattr steps_read_list steps_cursor_execute steps_fetch_all
  steps_fetchone steps_getOrders : steps.

Ltac steps_method := repeat (first [assumption | step | solve [eauto with steps]]).

Lemma steps_info : steps R (info W).
Proof. unfold info. steps_method. Qed.

Lemma steps_getMainCurrency : steps R (getMainCurrency W).
Proof. unfold getMainCurrency. steps_method. Qed.

Lemma steps_getContacts (num : Z) (columns : list string) (cardCode : pyval)
    (contact : gmap string pyval) :
  steps R (getContacts W num columns cardCode contact).
Proof. unfold getContacts. steps_method. Qed.

Local Hint Resolve steps_getMainCurrency steps_getContacts : steps.

Lemma steps_insertContact (cardCode : pyval) (contact : gmap string pyval) :
  steps R (insertContact W cardCode contact).
Proof. unfold insertContact. steps_method. Qed.

Local Hint Resolve steps_insertContact : steps.

Lemma steps_getContactPersonCode (o : gmap string pyval) :
  steps R (getContactPersonCode W o).
Proof. unfold getContactPersonCode. steps_method. Qed.

Lemma steps_getExpnsCode (n : pyval) : steps R (getExpnsCode W n).
Proof. unfold getExpnsCode. steps_method. Qed.

Lemma steps_getTrnspCode (n : pyval) : steps R (getTrnspCode W n).
Proof. unfold getTrnspCode. steps_method. Qed.

Local Hint Resolve steps_getContactPersonCode steps_getExpnsCode
  steps_getTrnspCode : steps.

Lemma steps_assign (field : string) (o : gmap string pyval) (key : string) :
  steps R (assign field o key).
Proof. unfold assign. steps_method. Qed.

Lemma steps_add_lines (items : list (gmap string pyval)) (i : Z) :
  steps R (add_lines W i items).
Proof.
  revert i. induction items as [|item items IH]; intros i; simpl.
  - apply steps_ret.
  - steps_method.
Qed.

Local Hint Resolve steps_assign steps_add_lines : steps.

Lemma steps_insertOrder (o : order) : steps R (insertOrder W o).
Proof. unfold insertOrder. steps_method. Qed.

Lemma steps_cancelOrder (o : gmap string pyval) : steps R (cancelOrder W o).
Proof. unfold cancelOrder. steps_method. Qed.

Lemma steps_getShipmentItems (shipmentId : pyval) (columns : list string) :
  steps R (_getShipmentItems W shipmentId columns).
Proof. unfold _getShipmentItems. steps_method. Qed.

Local Hint Resolve steps_getShipmentItems : steps.

Lemma steps_attach_items (itemColumns : list string) (shipments : list row) :
  steps R (attach_items W itemColumns shipments).
Proof.
  induction shipments as [|s shipments IH]; simpl.
  - apply steps_ret.
  - steps_method.
Qed.

Local Hint Resolve steps_attach_items : steps.

Lemma steps_getShipments_query (num : Z) (columns : option nat)
    (params : odict filter_dict) (itemColumns : list string) :
  steps R (getShipments_query W num columns params itemColumns).
Proof. unfold getShipments_query. steps_method. Qed.

Local Hint Resolve steps_getShipments_query : steps.

Lemma steps_getShipments (num : Z) (columns : option nat)
    (params : odict filter_dict) (itemColumns : list string) :
  steps R (getShipments W num columns params itemColumns).
Proof. unfold getShipments. steps_method. Qed.

Lemma steps_getItems (limit : Z) (columns whs code : option string) :
  steps R (getItems W limit columns whs code).
Proof. unfold getItems. steps_method. Qed.

Lemma steps_getPrices (limit : Z) (columns whs code : option string) :
  steps R (getPrices W limit columns whs code).
Proof. unfold getPrices. steps_method. Qed.

Local Hint Resolve steps_info steps_insertOrder steps_cancelOrder
  steps_getShipments steps_getItems steps_getPrices : steps.

Lemma steps_run_call (c : call) : steps R (run_call W c).
Proof.
  destruct c; simpl; (apply steps_bind; [|intros ?; apply steps_ret]);
    eauto with steps.
  all: unfold getExpnsNames, getTrnspNames, getPayMethCods, getTaxCodes;
    eauto with steps.
Qed.

Lemma steps_run_calls (calls : list call) (st : state) :
  R st (run_calls W calls st).
Proof.
  revert st. induction calls as [|c calls IH]; intros st; simpl; [done|].
  etrans; [apply (steps_run_call c st)|apply IH].
Qed.

End Steps.

(** ** The connection lifecycle *)

Lemma count_event_app (e : event) (l1 l2 : list event) :
  count_event e (l1 ++ l2) = (count_event e l1 + count_event e l2)%nat.
Proof. unfold count_event. by rewrite filter_app, length_app. Qed.

Lemma count_event_snoc (e x : event) (l : list event) :
  count_event e (l ++ [x])
  = (count_event e l + if decide (x = e) then 1 else 0)%nat.
Proof.
  rewrite count_event_app. f_equal. unfold count_event.
  rewrite filter_cons, filter_nil. by destruct (decide (x = e)).
Qed.

Lemma count_event_other (e x : event) (l : list event) :
  x ≠ e -> count_event e (l ++ [x]) = count_event e l.
Proof. intros Hne. rewrite count_event_snoc, decide_False by done. lia. Qed.


Global Instance keeps_inv_preorder : PreOrder keeps_inv.
Proof. split; unfold keeps_inv; [intros st|intros st1 st2 st3]; tauto. Qed.

Global Instance trace_grows_preorder : PreOrder trace_grows.
Proof.
  split; unfold trace_grows; [intros st|intros st1 st2 st3 H1 H2]; [done|].
  by etrans.
Qed.






Lemma ensure_DocEntry_run (columns : option nat) (st : state) :
  exists st', ensure_DocEntry columns st = (Ok tt, st') /\
    ctx_COM st' = ctx_COM st /\ ctx_SQL st' = ctx_SQL st /\
    trace st' = trace st.
Proof.
  unfold ensure_DocEntry, read_list, write_list. run_M.
  case_bool_decide; destruct columns; eexists; (split; [reflexivity|done]).
Qed.


Lemma trace_grows_event (e : event) (st : state) :
  is_connection_event e = false -> trace_grows st (add_event e st).
Proof. intros _. unfold trace_grows. simpl. by apply prefix_app_r. Qed.


Lemma trace_grows_sql : steps trace_grows sql_adaptor.
Proof.
  intros st. unfold sql_adaptor, trace_grows. run_M.
  destruct (ctx_SQL st); simpl; [done|].
  rewrite <- app_assoc. by apply prefix_app_r.
Qed.





Global Instance closes_nothing_preorder : PreOrder closes_nothing.
Proof.
  split; unfold closes_nothing; [intros st|intros st1 st2 st3 [] []]; [done|].
  split; congruence.
Qed.

Lemma run_calls_closes_nothing (W : world) (calls : list call) (st : state) :
  closes_nothing st (run_calls W calls st).
Proof.
  apply (steps_run_calls W closes_nothing).
  - intros e st' He. unfold closes_nothing. simpl.
    by rewrite !count_event_other by (intros ->; discriminate).
  - intros st'. unfold com_adaptor, closes_nothing. run_M.
    destruct (ctx_COM st'); simpl; [done|].
    by rewrite !count_event_other by done.
  - intros st'. unfold sql_adaptor, closes_nothing. run_M.
    destruct (ctx_SQL st'); simpl; [done|].
    by rewrite !count_event_other by done.
  - intros columns st'.
    destruct (ensure_DocEntry_run columns st') as (st'' & -> & _ & _ & Ht).
    unfold closes_nothing. simpl. by rewrite Ht.
Qed.




Lemma getOrders_query_builder_witness :
  getOrders_sql 5 ["DocEntry"; "CardCode"] sample_params
  = Ok "SELECT top 5 DocEntry ,CardCode FROM dbo.ORDR WHERE NumAtCard = %(NumAtCard)s AND DocStatus <> %(DocStatus)s".
Proof.
  destruct (getOrders_query_builder 5 ["DocEntry"; "CardCode"] sample_params)
    as (_ & Hsql & _).
  - apply (bool_decide_unpack _). vm_compute. exact I.
  - apply (bool_decide_unpack _). vm_compute. exact I.
  - rewrite Hsql by discriminate. vm_compute. reflexivity.
Defined.

(** ** Cancelling an order *)

Lemma getOrders_by_external_id (W : world) (col : string) (v : pyval)
    (st : state) :
  getOrders W 1 ["DocEntry"] [(col, {["value" := v]})] st
  = (Ok (getOrders_order
           <$> cursor_rows W (trace (sql_adaptor st).2) (lookup_sql col)
                 (ArgsDict [(col, v)])),
     add_event (SqlExecute (lookup_sql col) (ArgsDict [(col, v)]))
       (sql_adaptor st).2).
Proof.
  apply getOrders_run.
  - rewrite getOrders_sql_closed by apply NoDup_singleton. reflexivity.
  - rewrite getOrders_args_closed; [reflexivity|apply NoDup_singleton|].
    apply Forall_singleton. by eexists.
Qed.

Lemma external_id_params_found (o : gmap string pyval) (id : pyval) :
  o !! "fe_order_id" = Some id ->
  external_id_params o
  = Ok [(external_id_column o, {["value" := PStr (py_str id)]})].
Proof.
  intros Hid. unfold external_id_params, external_id_column, has_key, dict_item.
  case_bool_decide as Hdom.
  - apply elem_of_dom in Hdom as [udf Hudf]. by rewrite Hudf, Hid.
  - apply not_elem_of_dom in Hdom. by rewrite Hdom, Hid.
Qed.

(** C5. [cancelOrder] looks the order up by its external id, in the
    user-defined field when the order names one and in [NumAtCard]
    otherwise.  When the lookup matches no order it fails with the
    not-found error that names the external id; when it matches and
    the remote cancel returns zero, it returns the document entry the
    lookup resolved. *)
Theorem cancelOrder_outcomes (W : world) (o : gmap string pyval) (id : pyval)
    (st : state) :
  o !! "fe_order_id" = Some id ->
  let col := external_id_column o in
  let args := ArgsDict [(col, PStr (py_str id))] in
  let st1 := add_event (ComCall "company.GetBusinessObject" [PStr "oOrders"])
                       (com_adaptor W st).2 in
  let st2 := (sql_adaptor st1).2 in
  let rows := cursor_rows W (trace st2) (lookup_sql col) args in
  let st3 := add_event (SqlExecute (lookup_sql col) args) st2 in
  (rows = [] ->
   cancelOrder W o st
   = (Raise (Exception ("Order " +:+ py_str id +:+ " is not found.")), st3)) /\
  (forall r rest docEntry,
     rows = r :: rest ->
     r !! "DocEntry" = Some docEntry ->
     com_int W (trace st3 ++ [ComCall "order.GetByKey" [getOrders_value docEntry]])
             "order.Cancel" = 0 ->
     (cancelOrder W o st).1 = Ok (getOrders_value docEntry)).
Proof.
  intros Hid col args st1 st2 rows st3.
  assert (forall k : list row -> M pyval,
            (com_adaptor W;;
             emit (ComCall "company.GetBusinessObject" [PStr "oOrders"]);;
             params ← lift (external_id_params o);
             orders ← getOrders W 1 ["DocEntry"] params;
             k orders) st
            = k (getOrders_order <$> rows) st3) as Hrun.
  { intros k. destruct (com_adaptor_run W st) as (a & st' & Hcom & _).
    rewrite (bind_ok _ _ _ _ _ Hcom).
    rewrite (bind_ok (emit (ComCall "company.GetBusinessObject"
                              [PStr "oOrders"])) _ st' _ tt eq_refl).
    rewrite (external_id_params_found o id Hid).
    rewrite (bind_ok (lift (Ok _)) _ _ _ _ eq_refl).
    rewrite (bind_ok _ _ _ _ _ (getOrders_by_external_id W _ _ _)).
    subst rows st3 st2 st1 args col. by rewrite Hcom. }
  split.
  - intros Hrows. unfold cancelOrder. rewrite Hrun, Hrows. simpl.
    unfold dict_item. rewrite Hid. reflexivity.
  - intros r rest docEntry Hrows Hdoc Hcancel.
    unfold cancelOrder. rewrite Hrun, Hrows. simpl.
    rewrite getOrders_order_fmap. unfold dict_item.
    rewrite lookup_fmap, Hdoc. simpl.
    unfold com_call. run_M. simpl in Hcancel. rewrite Hcancel. reflexivity.
Qed.

Lemma cancelOrder_outcomes_witness :
  cancelOrder (sample_world [] 0) sample_cancel initial_state
  = (Raise (Exception "Order 100000042 is not found."),
     add_event
       (SqlExecute (lookup_sql "NumAtCard")
          (ArgsDict [("NumAtCard", PStr "100000042")]))
       (sql_adaptor
          (add_event (ComCall "company.GetBusinessObject" [PStr "oOrders"])
             (com_adaptor (sample_world [] 0) initial_state).2)).2) /\
  (cancelOrder (sample_world [{["DocEntry" := PInt 815]}] 0) sample_cancel
     initial_state).1
  = Ok (PStr "815").
Proof.
  split.
  - destruct (cancelOrder_outcomes (sample_world [] 0) sample_cancel
                (PInt 100000042) initial_state eq_refl) as [Hnone _].
    apply Hnone. reflexivity.
  - destruct (cancelOrder_outcomes
                (sample_world [{["DocEntry" := PInt 815]}] 0) sample_cancel
                (PInt 100000042) initial_state eq_refl) as [_ Hsome].
    apply (Hsome {["DocEntry" := PInt 815]} [] (PInt 815));
      reflexivity.
Defined.

(** ** Shipments *)

Lemma getShipments_p_raised (e : pyexn) (keys : list string) :
  foldl getShipments_p_step (Raise e) keys = Raise e.
Proof. induction keys as [|k keys IH]; [done|]. simpl. exact IH. Qed.

Lemma getShipments_p_step_raises (p : odict pyval) (k : string) :
  exists msg, getShipments_p_step (Ok p) k = Raise (ValueError msg) \/
              getShipments_p_step (Ok p) k = Raise (TypeError msg).
Proof.
  unfold getShipments_p_step, unpack_key.
  destruct k as [|a [|b [|c k]]]; simpl; eauto.
Qed.

(** The comprehension of line 427 raises on every non-empty filter map. *)
Lemma getShipments_p_raises (params : odict filter_dict) :
  params ≠ [] ->
  exists msg, getShipments_p params = Raise (ValueError msg) \/
              getShipments_p params = Raise (TypeError msg).
Proof.
  destruct params as [|[k f] params]; [done|]. intros _.
  unfold getShipments_p. simpl.
  destruct (getShipments_p_step_raises [] k) as [msg [-> | ->]];
    exists msg; rewrite getShipments_p_raised; auto.
Qed.

Lemma add_where_closed (sql : string) (params : odict filter_dict) :
  NoDup (odict_keys params) ->
  exists sql', add_where sql (prod_map id op_or_eq <$> params) params = Ok sql'.
Proof.
  intros Hnd. unfold add_where. destruct (0 <? length params)%nat; [|by eexists].
  rewrite where_clauses_closed by done. by eexists.
Qed.

(** C3 (the code departs from the claim). With a non-empty filter map
    [getShipments] returns no rows at all: it raises, a [ValueError]
    or a [TypeError], while it converts the map for the driver, before
    any statement reaches the database. *)
Theorem getShipments_filtered_raises (W : world) (num : Z)
    (columns : option nat) (params : odict filter_dict)
    (itemColumns : list string) (st : state) :
  NoDup (odict_keys params) ->
  params ≠ [] ->
  exists msg,
    ((getShipments W num columns params itemColumns st).1 = Raise (ValueError msg) \/
     (getShipments W num columns params itemColumns st).1 = Raise (TypeError msg)) /\
    trace (getShipments W num columns params itemColumns st).2 = trace st.
Proof.
  intros Hnd Hne. unfold getShipments.
  destruct (ensure_DocEntry_run columns st) as (st' & Hrun & _ & _ & Ht).
  rewrite (bind_ok _ _ _ _ _ Hrun). unfold getShipments_query.
  rewrite (bind_ok (read_list columns) _ st' st' _ eq_refl).
  rewrite build_ops_closed by done.
  rewrite (bind_ok (lift (Ok _)) _ _ _ _ eq_refl).
  destruct (add_where_closed
              ("SELECT top " +:+ pretty num +:+ " " +:+
               select_cols (match columns with
                            | None => getShipments_columns_default st'
                            | Some a => default [] (heap st' !! a)
                            end) +:+ " FROM dbo.ODLN") params Hnd)
    as [sql' Hsql].
  rewrite Hsql. rewrite (bind_ok (lift (Ok _)) _ _ _ _ eq_refl).
  destruct (getShipments_p_raises params Hne) as [msg [Hp | Hp]];
    exists msg; rewrite Hp; (split; [|exact Ht]); [left|right]; reflexivity.
Qed.

Lemma getShipments_filtered_raises_witness :
  exists msg,
    ((getShipments (sample_world [] 0) 100 None sample_shipment_params []
        initial_state).1 = Raise (ValueError msg) \/
     (getShipments (sample_world [] 0) 100 None sample_shipment_params []
        initial_state).1 = Raise (TypeError msg)) /\
    trace (getShipments (sample_world [] 0) 100 None sample_shipment_params []
             initial_state).2 = [].
Proof.
  apply (getShipments_filtered_raises (sample_world [] 0) 100 None
           sample_shipment_params [] initial_state).
  - apply NoDup_singleton.
  - discriminate.
Defined.

(** The call of the sample: the key ['CardCode'] has more than two
    characters. *)
Lemma getShipments_filtered_example :
  (getShipments (sample_world [] 0) 100 None sample_shipment_params []
     initial_state).1
  = Raise (ValueError "too many values to unpack").
Proof. reflexivity. Qed.

Global Instance keeps_lists_preorder : PreOrder keeps_lists.
Proof.
  split; unfold keeps_lists; [intros st|intros st1 st2 st3 [] []]; [done|].
  split; congruence.
Qed.

Global Instance keeps_default_preorder : PreOrder keeps_default.
Proof. split; unfold keeps_default; [intros st|intros st1 st2 st3]; tauto. Qed.

Lemma keeps_lists_event (e : event) (st : state) :
  is_connection_event e = false -> keeps_lists st (add_event e st).
Proof. done. Qed.

Lemma keeps_lists_sql : steps keeps_lists sql_adaptor.
Proof.
  intros st. destruct (sql_adaptor_run st) as (a & st' & -> & _ & _ & Hh & Hd).
  by split.
Qed.

Lemma keeps_lists_com (W : world) : steps keeps_lists (com_adaptor W).
Proof.
  intros st. destruct (com_adaptor_run W st) as (a & st' & -> & _ & _ & Hh & Hd).
  by split.
Qed.

(** After its first two lines [getShipments] leaves the lists alone. *)
Lemma getShipments_query_lists (W : world) (num : Z) (columns : option nat)
    (params : odict filter_dict) (itemColumns : list string) (st : state) :
  keeps_lists st (getShipments_query W num columns params itemColumns st).2.
Proof.
  apply (steps_getShipments_query W keeps_lists).
  - apply keeps_lists_event.
  - apply keeps_lists_sql.
Qed.

Lemma run_calls_default (W : world) (calls : list call) (st : state) :
  keeps_default st (run_calls W calls st).
Proof.
  apply (steps_run_calls W keeps_default).
  - intros e st' _. unfold keeps_default. done.
  - intros st' Hd. destruct (keeps_lists_com W st') as [_ Heq]. congruence.
  - intros st' Hd. destruct (keeps_lists_sql st') as [_ Heq]. congruence.
  - intros columns st' Hd. unfold ensure_DocEntry, read_list, write_list.
    run_M. destruct columns as [a|]; simpl.
    + by case_bool_decide.
    + rewrite Hd. rewrite bool_decide_false; [done|]. set_solver.
Qed.

Lemma getShipments_state (W : world) (num : Z) (columns : option nat)
    (params : odict filter_dict) (itemColumns : list string) (st : state) :
  (getShipments W num columns params itemColumns st).2
  = (getShipments_query W num columns params itemColumns
       (ensure_DocEntry columns st).2).2.
Proof.
  unfold getShipments.
  destruct (ensure_DocEntry_run columns st) as (st' & Hrun & _).
  by rewrite (bind_ok _ _ _ _ _ Hrun), Hrun.
Qed.

Lemma fetch_all_run (W : world) (sql : string) (args : list pyval)
    (kwargs : list (string * pyval)) (st : state) :
  fetch_all W sql args kwargs st
  = (Ok (fetch_all_item
           <$> cursor_rows W (trace (sql_adaptor st).2) sql
                 (execute_args args kwargs)),
     add_event (SqlExecute sql (execute_args args kwargs)) (sql_adaptor st).2).
Proof.
  unfold fetch_all, cursor_execute.
  destruct (sql_adaptor_run st) as (a & st' & Hsql & _).
  run_M. by rewrite Hsql.
Qed.

(** What an unfiltered call without a [columns] argument sends to the
    database once the default list holds ['DocEntry']. *)
Lemma getShipments_default_statement (W : world) (num : Z)
    (itemColumns : list string) (st : state) :
  getShipments_columns_default st = ["DocEntry"] ->
  exists rest,
    trace (getShipments W num None [] itemColumns st).2
    = trace (sql_adaptor st).2 ++
      SqlExecute ("SELECT top " +:+ pretty num +:+ " DocEntry FROM dbo.ODLN")
                 ArgsNone :: rest.
Proof.
  intros Hd. rewrite getShipments_state.
  assert ((ensure_DocEntry None st).2 = st) as ->.
  { unfold ensure_DocEntry, read_list. run_M. rewrite Hd.
    rewrite bool_decide_false; [done|]. set_solver. }
  unfold getShipments_query.
  rewrite (bind_ok (read_list None) _ st st _ eq_refl). rewrite Hd.
  change (build_ops []) with (Ok ([] : odict pyval)).
  rewrite (bind_ok (lift (Ok _)) _ _ _ _ eq_refl).
  change (add_where ?s [] []) with (Ok s).
  rewrite (bind_ok (lift (Ok _)) _ _ _ _ eq_refl).
  change (getShipments_p []) with (Ok ([] : odict pyval)).
  rewrite (bind_ok (lift (Ok _)) _ _ _ _ eq_refl).
  rewrite (bind_ok _ _ _ _ _ (fetch_all_run W _ [] [] st)).
  destruct (steps_attach_items W trace_grows trace_grows_event trace_grows_sql
              itemColumns
              (fetch_all_item
                 <$> cursor_rows W (trace (sql_adaptor st).2)
                       ("SELECT top " +:+ pretty num +:+ " " +:+
                        select_cols ["DocEntry"] +:+ " FROM dbo.ODLN")
                       (execute_args [] []))
              (add_event
                 (SqlExecute ("SELECT top " +:+ pretty num +:+ " " +:+
                              select_cols ["DocEntry"] +:+ " FROM dbo.ODLN")
                             (execute_args [] []))
                 (sql_adaptor st).2))
    as [rest Hrest].
  exists rest. rewrite Hrest. simpl. by rewrite <- app_assoc.
Qed.

(** C10. [getShipments] appends ['DocEntry'] in place to the list
    the caller passes as [columns] when the list lacks it, so the
    caller's list is changed.  The default of [columns] is one shared
    list object: a first call without [columns] leaves ['DocEntry'] in
    it, whatever the adaptor is called with afterwards it stays so,
    and every later unfiltered call without [columns] sends a
    statement that projects [DocEntry] only, not [*]. *)
Theorem getShipments_columns_shared (W : world) (num num' : Z) (a : nat)
    (cs : list string) (params : odict filter_dict)
    (itemColumns itemColumns' : list string) (calls : list call)
    (st : state) :
  heap st !! a = Some cs ->
  "DocEntry" ∉ cs ->
  getShipments_columns_default st = [] ->
  heap (getShipments W num (Some a) params itemColumns st).2 !! a
    = Some (cs ++ ["DocEntry"]) /\
  let st1 := (getShipments W num None params itemColumns st).2 in
  let st2 := run_calls W calls st1 in
  getShipments_columns_default st1 = ["DocEntry"] /\
  getShipments_columns_default st2 = ["DocEntry"] /\
  exists rest,
    trace (getShipments W num' None [] itemColumns' st2).2
    = trace (sql_adaptor st2).2 ++
      SqlExecute ("SELECT top " +:+ pretty num' +:+ " DocEntry FROM dbo.ODLN")
                 ArgsNone :: rest.
Proof.
  intros Ha Hcs Hd.
  assert (getShipments_columns_default
            (getShipments W num None params itemColumns st).2 = ["DocEntry"])
    as Hd1.
  { rewrite getShipments_state.
    destruct (getShipments_query_lists W num None params itemColumns
                (ensure_DocEntry None st).2) as [_ ->].
    unfold ensure_DocEntry, read_list, write_list. run_M. rewrite Hd.
    rewrite bool_decide_true by set_solver. reflexivity. }
  split; [|intros st1 st2; split; [exact Hd1|]].
  - rewrite getShipments_state.
    destruct (getShipments_query_lists W num (Some a) params itemColumns
                (ensure_DocEntry (Some a) st).2) as [-> _].
    unfold ensure_DocEntry, read_list, write_list. run_M. rewrite Ha. simpl.
    rewrite bool_decide_true by done. simpl. apply lookup_insert_eq.
  - pose proof (run_calls_default W calls st1 Hd1) as Hd2. fold st2 in Hd2.
    split; [exact Hd2|].
    by apply getShipments_default_statement.
Qed.

Lemma getShipments_columns_shared_witness :
  let st := set_heap {[7%nat := ["CardCode"]]} initial_state in
  heap (getShipments (sample_world [] 0) 100 (Some 7%nat) [] [] st).2 !! 7%nat
  = Some ["CardCode"; "DocEntry"].
Proof.
  intros st.
  destruct (getShipments_columns_shared (sample_world [] 0) 100 100 7
              ["CardCode"] [] [] [] [] st) as [Hheap _].
  - reflexivity.
  - apply (bool_decide_unpack _). vm_compute. exact I.
  - reflexivity.
  - exact Hheap.
Defined.

(** ** Failed commits *)

Lemma self_getattr_company (st : state) :
  self_getattr "company" st = (Raise (AttributeError "SAPB1Adaptor" "company"), st).
Proof. reflexivity. Qed.

(** C1 (the code departs from the claim). When [Update] returns a
    non-zero code, [insertContact] does fail, but on reading
    [self.company], an attribute the adaptor does not have: the error
    raised is that [AttributeError], and the last-error text of the
    remote system is never read.  [cancelOrder] does the same when
    [Cancel] returns a non-zero code. *)
Theorem commit_failure_loses_error (W : world) (cardCode : pyval)
    (contact o : gmap string pyval) (first last address : string)
    (tel email id docEntry : pyval) (r : row) (st : state) :
  (forall tr, com_int W tr "busPartner.Update" ≠ 0) ->
  (forall tr, com_int W tr "order.Cancel" ≠ 0) ->
  contact !! "FirstName" = Some (PStr first) ->
  contact !! "LastName" = Some (PStr last) ->
  contact !! "Tel1" = Some tel ->
  contact !! "E_MailL" = Some email ->
  contact !! "Address" = Some (PStr address) ->
  o !! "fe_order_id" = Some id ->
  (forall tr sql args, cursor_rows W tr sql args = [r]) ->
  r !! "DocEntry" = Some docEntry ->
  (insertContact W cardCode contact st).1
    = Raise (AttributeError "SAPB1Adaptor" "company") /\
  (cancelOrder W o st).1 = Raise (AttributeError "SAPB1Adaptor" "company").
Proof.
  intros Hupdate Hcancel Hfirst Hlast Htel Hemail Haddr Hid Hrows Hdoc.
  split.
  - unfold insertContact.
    destruct (com_adaptor_run W st) as (a & st' & Hcom & _).
    rewrite (bind_ok _ _ _ _ _ Hcom).
    unfold dict_item, com_read, com_call, str_time. run_M.
    rewrite Hfirst, Hlast, Htel, Hemail, Haddr. simpl.
    match goal with
    | |- context [com_int W ?tr "busPartner.Update" =? 0] =>
        destruct (Z.eqb_spec (com_int W tr "busPartner.Update") 0) as [Hz|Hnz];
          [by apply Hupdate in Hz|reflexivity]
    end.
  - unfold cancelOrder.
    destruct (com_adaptor_run W st) as (a & st' & Hcom & _).
    rewrite (bind_ok _ _ _ _ _ Hcom).
    rewrite (bind_ok (emit (ComCall "company.GetBusinessObject"
                              [PStr "oOrders"])) _ st' _ tt eq_refl).
    rewrite (external_id_params_found o id Hid).
    rewrite (bind_ok (lift (Ok _)) _ _ _ _ eq_refl).
    rewrite (bind_ok _ _ _ _ _ (getOrders_by_external_id W _ _ _)).
    rewrite Hrows. simpl. rewrite getOrders_order_fmap. unfold dict_item.
    rewrite lookup_fmap, Hdoc. simpl. unfold com_call. run_M.
    match goal with
    | |- context [com_int W ?tr "order.Cancel" =? 0] =>
        destruct (Z.eqb_spec (com_int W tr "order.Cancel") 0) as [Hz|Hnz];
          [by apply Hcancel in Hz|reflexivity]
    end.
Qed.

Lemma commit_failure_loses_error_witness :
  (insertContact (sample_world [sample_row] (-10)) (PStr "C20000")
     sample_contact initial_state).1
  = Raise (AttributeError "SAPB1Adaptor" "company") /\
  (cancelOrder (sample_world [sample_row] (-10)) sample_cancel
     initial_state).1
  = Raise (AttributeError "SAPB1Adaptor" "company").
Proof.
  apply (commit_failure_loses_error (sample_world [sample_row] (-10))
           (PStr "C20000") sample_contact sample_cancel
           "Ada" "Lovelace" "12 St James Square, London"
           (PStr "555-0100") (PStr "ada@example.com") (PInt 100000042)
           (PInt 815) sample_row initial_state);
    try reflexivity; intros; simpl; lia.
Defined.

(** The sibling path: when [Add] returns a non-zero code, [insertOrder]
    reads the last error from the connected company, logs it and
    raises it. *)
Lemma insertOrder_commit_failure :
  (insertOrder (sample_world [sample_row] (-10)) sample_order initial_state).1
  = Raise (Exception "(-10, 'Internal error')") /\
  LogError "(-10, 'Internal error')"
    ∈ trace (insertOrder (sample_world [sample_row] (-10)) sample_order
               initial_state).2.
Proof.
  split; [vm_compute; reflexivity|].
  apply (bool_decide_unpack _). vm_compute. exact I.
Qed.

(** ** Statements that embed a value *)

Lemma str_app_inv_tail (s1 s2 t : string) : s1 +:+ t = s2 +:+ t -> s1 = s2.
Proof.
  revert s2. induction s1 as [|c s1 IH]; intros [|c' s2] Heq; [done| | |].
  - apply (f_equal String.length) in Heq.
    rewrite !str_app_length in Heq. simpl in Heq. lia.
  - apply (f_equal String.length) in Heq.
    rewrite !str_app_length in Heq. simpl in Heq. lia.
  - change (String c (s1 +:+ t) = String c' (s2 +:+ t)) in Heq.
    injection Heq as -> Heq. f_equal. by apply IH.
Qed.

Lemma str_app_inv_head (s t1 t2 : string) : s +:+ t1 = s +:+ t2 -> t1 = t2.
Proof.
  induction s as [|c s IH]; [done|]. intros Heq.
  change (String c (s +:+ t1) = String c (s +:+ t2)) in Heq.
  injection Heq as Heq. by apply IH.
Qed.

(** A value between a fixed head and a fixed tail can be read back. *)
Lemma str_embed_inj (pre post w1 w2 : string) :
  pre +:+ w1 +:+ post = pre +:+ w2 +:+ post -> w1 = w2.
Proof.
  intros Heq. apply str_app_inv_head in Heq. by apply str_app_inv_tail in Heq.
Qed.

Lemma truthy_Some (w : string) : w ≠ "" -> truthy (Some w) = true.
Proof. by destruct w. Qed.

Ltac embed_inj H :=
  rewrite <- ?str_app_assoc in H;
  rewrite !(str_app_assoc _ _ "')") in H || rewrite !(str_app_assoc _ _ "'") in H;
  by apply str_embed_inj in H.

(** C2 (the code departs from the claim). [getItems] and [getPrices]
    write the warehouse code, and without one the item code, into the
    text of the statement: statements built from two different values
    differ, and the cursor receives the statement with no parameters
    at all. *)
Theorem lookup_values_interpolated (W : world) (limit : Z)
    (columns code : option string) (w1 w2 : string) (st : state) :
  w1 ≠ "" -> w2 ≠ "" ->
  (getItems_sql limit columns (Some w1) code
   = getItems_sql limit columns (Some w2) code -> w1 = w2) /\
  (getItems_sql limit columns None (Some w1)
   = getItems_sql limit columns None (Some w2) -> w1 = w2) /\
  (getPrices_sql limit columns (Some w1) code
   = getPrices_sql limit columns (Some w2) code -> w1 = w2) /\
  (getPrices_sql limit columns None (Some w1)
   = getPrices_sql limit columns None (Some w2) -> w1 = w2) /\
  trace (getItems W limit columns (Some w1) code st).2
  = trace (sql_adaptor st).2 ++
    [SqlExecute (getItems_sql limit columns (Some w1) code) ArgsNone] /\
  trace (getPrices W limit columns (Some w1) code st).2
  = trace (sql_adaptor st).2 ++
    [SqlExecute (getPrices_sql limit columns (Some w1) code) ArgsNone].
Proof.
  intros Hw1 Hw2.
  pose proof (truthy_Some w1 Hw1) as Ht1.
  pose proof (truthy_Some w2 Hw2) as Ht2.
  repeat split.
  - unfold getItems_sql. rewrite Ht1, Ht2. simpl. intros H. embed_inj H.
  - unfold getItems_sql. rewrite Ht1, Ht2. simpl. intros H. embed_inj H.
  - unfold getPrices_sql. rewrite Ht1, Ht2. simpl. intros H. embed_inj H.
  - unfold getPrices_sql. rewrite Ht1, Ht2. simpl. intros H. embed_inj H.
  - unfold getItems. by rewrite fetch_all_run.
  - unfold getPrices. by rewrite fetch_all_run.
Qed.

Lemma lookup_values_interpolated_witness :
  getItems_sql 1 None (Some "01") None ≠ getItems_sql 1 None (Some "02") None.
Proof.
  intros Heq.
  destruct (lookup_values_interpolated (sample_world [] 0) 1 None None
              "01" "02" initial_state) as (Hitems & _); [done|done|].
  apply Hitems in Heq. discriminate Heq.
Defined.

(** A warehouse code with a quote in it becomes part of the statement. *)
Lemma getItems_statement_example :
  getItems_sql 1 (Some "ItemCode") (Some "01' OR '1'='1") None
  = "SELECT top 1 ItemCode FROM dbo.OITM" +:+ nl 21 +:+
    "WHERE ItemCode in" +:+ nl 25 +:+
    "(SELECT ItemCode FROM dbo.OITW" +:+ nl 26 +:+
    "WHERE WhsCode = '01' OR '1'='1')".
Proof. vm_compute. reflexivity. Qed.

(** ** Trimming in [insertOrder] *)

Lemma trim_field_found (key : string) (maxLength : Z) (f : gmap string pyval)
    (s : string) :
  f !! key = Some (PStr s) ->
  trim_field key maxLength f = Ok (<[key := PStr (trimValue s maxLength)]> f).
Proof. intros Hk. unfold trim_field, dict_item. by rewrite Hk. Qed.

(** C4 (the code departs from the claim). [insertOrder] replaces the
    three fields by their trimmed values, and [trimValue] gives a
    field longer than its cap the first cap-minus-one characters: 19 of
    a telephone number over 20, 99 of an address over 100, not 20 and
    100.  A field within its cap is unchanged. *)
Theorem insertOrder_trim_one_short (o : order) (tel addr ship : string) :
  o_fields o !! "billto_telephone" = Some (PStr tel) ->
  o_fields o !! "billto_address" = Some (PStr addr) ->
  o_fields o !! "shipto_address" = Some (PStr ship) ->
  exists o',
    insertOrder_trim o = Ok o' /\
    o_fields o' !! "billto_telephone" = Some (PStr (trimValue tel 20)) /\
    o_fields o' !! "billto_address" = Some (PStr (trimValue addr 100)) /\
    o_fields o' !! "shipto_address" = Some (PStr (trimValue ship 100)) /\
    (20 < Z.of_nat (String.length tel) ->
     trimValue tel 20 = str_take 19 tel /\
     String.length (trimValue tel 20) = 19%nat) /\
    (100 < Z.of_nat (String.length addr) ->
     trimValue addr 100 = str_take 99 addr /\
     String.length (trimValue addr 100) = 99%nat) /\
    (100 < Z.of_nat (String.length ship) ->
     trimValue ship 100 = str_take 99 ship /\
     String.length (trimValue ship 100) = 99%nat) /\
    (Z.of_nat (String.length addr) <= 100 -> trimValue addr 100 = addr).
Proof.
  intros Htel Haddr Hship. unfold insertOrder_trim.
  rewrite (trim_field_found _ _ _ tel Htel). simpl.
  rewrite (trim_field_found "billto_address" _ _ addr)
    by by rewrite lookup_insert_ne.
  simpl.
  rewrite (trim_field_found "shipto_address" _ _ ship)
    by by rewrite !lookup_insert_ne.
  simpl. eexists. split; [reflexivity|]. cbn [o_fields].
  assert (forall (s : string) (cap : Z), 1 <= cap ->
            cap < Z.of_nat (String.length s) ->
            trimValue s cap = str_take (Z.to_nat (cap - 1)) s /\
            String.length (trimValue s cap) = Z.to_nat (cap - 1)) as Hlong.
  { intros s cap Hcap Hlen. split.
    - unfold trimValue, py_slice_to.
      destruct (Z.gtb_spec (Z.of_nat (String.length s)) cap); [|lia].
      destruct (Z.ltb_spec (cap - 1) 0); [lia|done].
    - pose proof (trimValue_long_length s cap Hcap Hlen). lia. }
  split; [by rewrite !lookup_insert_ne, lookup_insert_eq by done|].
  split; [by rewrite lookup_insert_ne, lookup_insert_eq by done|].
  split; [by rewrite lookup_insert_eq|].
  split; [intros Hlen; by apply (Hlong tel 20)|].
  split; [intros Hlen; by apply (Hlong addr 100)|].
  split; [intros Hlen; by apply (Hlong ship 100)|].
  apply trimValue_short.
Qed.

Lemma insertOrder_trim_one_short_witness :
  String.length (trimValue (letters 150) 100) = 99%nat.
Proof.
  destruct (insertOrder_trim_one_short sample_order "555-0100" (letters 150)
              "1 Main Street") as (o' & _ & _ & _ & _ & _ & Haddr & _);
    [reflexivity|reflexivity|reflexivity|].
  apply Haddr. vm_compute. reflexivity.
Defined.

(** ** The name of a new contact *)

Lemma no_blank_app (s t : string) :
  no_blank (s +:+ " " +:+ t) = false.
Proof.
  induction s as [|c s IH]; [done|].
  change (no_blank (String c (s +:+ " " +:+ t)) = false). simpl.
  rewrite IH. by rewrite andb_false_r.
Qed.

(** Two names are equal only when their suffixes are: a suffix has no
    blank, so the last blank of a name is the separator.  Whether the
    texts of two different timestamps differ is a matter of how
    [str()] prints a float. *)
Lemma contact_name_suffix (first1 last1 now1 first2 last2 now2 : string) :
  no_blank now1 = true -> no_blank now2 = true ->
  contact_name first1 last1 now1 = contact_name first2 last2 now2 ->
  now1 = now2.
Proof.
  unfold contact_name. intros H1 H2.
  generalize (py_slice_to (first1 +:+ " " +:+ last1) 36).
  generalize (py_slice_to (first2 +:+ " " +:+ last2) 36).
  intros p2 p1. revert p2.
  induction p1 as [|c p1 IH]; intros [|c' p2] Heq.
  - by injection Heq.
  - change (String " " now1 = String c' (p2 +:+ " " +:+ now2)) in Heq.
    injection Heq as _ Heq. rewrite Heq, no_blank_app in H1. discriminate.
  - change (String c (p1 +:+ " " +:+ now1) = String " " now2) in Heq.
    injection Heq as _ Heq. rewrite <- Heq, no_blank_app in H2. discriminate.
  - change (String c (p1 +:+ " " +:+ now1) = String c' (p2 +:+ " " +:+ now2))
      in Heq.
    injection Heq as _ Heq. by apply (IH p2).
Qed.

(** * Further properties of the code *)

(** ** [trimValue] *)

(** X1. For a cap of at least one, what [trimValue] returns never
    exceeds the cap, is a prefix of the value, and trimming it again
    changes nothing. *)
Theorem trimValue_within_cap (value : string) (maxLength : Z) :
  1 <= maxLength ->
  Z.of_nat (String.length (trimValue value maxLength)) <= maxLength /\
  (exists rest, value = trimValue value maxLength +:+ rest) /\
  trimValue (trimValue value maxLength) maxLength = trimValue value maxLength.
Proof.
  intros Hcap.
  assert (Z.of_nat (String.length (trimValue value maxLength)) <= maxLength)
    as Hlen.
  { destruct (Z.le_gt_cases (Z.of_nat (String.length value)) maxLength) as [H|H].
    - by rewrite trimValue_short.
    - rewrite trimValue_long_length by lia. lia. }
  split; [exact Hlen|split].
  - unfold trimValue, py_slice_to.
    destruct (_ >? _); [|exists ""; by rewrite str_app_nil_r].
    destruct (_ <? _); apply str_take_prefix.
  - by apply trimValue_short.
Qed.

Lemma trimValue_within_cap_witness :
  Z.of_nat (String.length (trimValue "Kensington High Street" 5)) <= 5 /\
  (exists rest, "Kensington High Street"
                = trimValue "Kensington High Street" 5 +:+ rest) /\
  trimValue (trimValue "Kensington High Street" 5) 5
  = trimValue "Kensington High Street" 5.
Proof. apply (trimValue_within_cap "Kensington High Street" 5). lia. Defined.

(** X2. With a cap of zero [trimValue] only drops the last character
    of a non-empty value: the result exceeds the cap as soon as the
    value has two characters. *)
Theorem trimValue_cap_zero (value : string) :
  (1 <= String.length value)%nat ->
  String.length (trimValue value 0) = (String.length value - 1)%nat.
Proof.
  intros Hlen. unfold trimValue, py_slice_to.
  destruct (Z.gtb_spec (Z.of_nat (String.length value)) 0); [|lia].
  change (0 - 1 <? 0) with true. cbv iota.
  rewrite str_take_length. lia.
Qed.

Lemma trimValue_cap_zero_witness :
  String.length (trimValue "abc" 0) = 2%nat.
Proof. apply (trimValue_cap_zero "abc"). simpl. lia. Defined.

(** ** What the read operations return *)

Lemma getOrders_value_text (v : pyval) : is_text (getOrders_value v).
Proof. destruct v; simpl; by eexists. Qed.

(** X3. Every cell of every order [getOrders] returns is a text,
    whatever the type of the database cell was. *)
Theorem getOrders_returns_text (W : world) (num : Z) (columns : list string)
    (params : odict filter_dict) (st : state) (orders : list row) :
  (getOrders W num columns params st).1 = Ok orders ->
  Forall (map_Forall (λ _ v, is_text v)) orders.
Proof.
  intros Hok.
  destruct (getOrders_sql num columns params) as [sql|e] eqn:Hsql.
  2:{ unfold getOrders in Hok. rewrite Hsql in Hok. discriminate Hok. }
  destruct (getOrders_args params) as [args|e] eqn:Hargs.
  2:{ unfold getOrders in Hok. rewrite Hsql, Hargs in Hok.
      destruct (sql_adaptor_run st) as (a & st' & Hrun & _).
      revert Hok. run_M. rewrite Hrun. discriminate. }
  rewrite (getOrders_run W _ _ _ _ _ st Hsql Hargs) in Hok.
  injection Hok as <-. apply Forall_fmap, Forall_forall. intros r _ k v.
  simpl. rewrite getOrders_order_fmap, lookup_fmap.
  destruct (r !! k) as [v'|]; [|done]. intros [= <-].
  apply getOrders_value_text.
Qed.

Lemma getOrders_returns_text_witness :
  Forall (map_Forall (λ _ v, is_text v))
         [getOrders_order sample_row].
Proof.
  apply (getOrders_returns_text (sample_world [sample_row] 0) 1 ["DocEntry"]
           [] initial_state).
  reflexivity.
Defined.


(** ** Filters without a value *)

Lemma getOrders_args_raised (params : odict filter_dict) (e : pyexn)
    (keys : list string) :
  foldl (getOrders_args_step params) (Raise e) keys = Raise e.
Proof. induction keys as [|k keys IH]; [done|]. simpl. exact IH. Qed.

Lemma getOrders_args_missing (params pre suf : odict filter_dict)
    (acc : odict pyval) :
  params = pre ++ suf ->
  NoDup (odict_keys params) ->
  Exists (λ kf, kf.2 !! "value" = None) suf ->
  foldl (getOrders_args_step params) (Ok acc) (odict_keys suf)
  = Raise (KeyError "value").
Proof.
  revert pre acc. induction suf as [|[k f] suf IH]; intros pre acc -> Hnd Hex.
  - by apply Exists_nil in Hex.
  - simpl.
    assert (odict_lookup (pre ++ (k, f) :: suf) k = Some f) as Hk.
    { apply odict_lookup_NoDup; [done|]. set_solver. }
    destruct (f !! "value") as [v|] eqn:Hv.
    + assert (getOrders_args_step (pre ++ (k, f) :: suf) (Ok acc) k
              = Ok (odict_set acc k v)) as ->.
      { unfold getOrders_args_step. simpl. unfold odict_item. rewrite Hk.
        simpl. unfold dict_item. by rewrite Hv. }
      apply (IH (pre ++ [(k, f)])); [by rewrite <- app_assoc|done|].
      apply Exists_cons in Hex as [Hex|Hex]; [|done].
      simpl in Hex. congruence.
    + assert (getOrders_args_step (pre ++ (k, f) :: suf) (Ok acc) k
              = Raise (KeyError "value")) as ->.
      { unfold getOrders_args_step. simpl. unfold odict_item. rewrite Hk.
        simpl. unfold dict_item. by rewrite Hv. }
      apply getOrders_args_raised.
Qed.

(** X5. When an entry of the filter map has no ['value'], [getOrders]
    raises [KeyError('value')]; by then the database connection has
    been opened, but no statement is sent. *)
Theorem getOrders_filter_without_value (W : world) (num : Z)
    (columns : list string) (params : odict filter_dict) (st : state) :
  NoDup (odict_keys params) ->
  Exists (λ kf, kf.2 !! "value" = None) params ->
  getOrders W num columns params st
  = (Raise (KeyError "value"), (sql_adaptor st).2).
Proof.
  intros Hnd Hex. unfold getOrders.
  rewrite getOrders_sql_closed by done.
  rewrite (bind_ok (lift (Ok _)) _ _ _ _ eq_refl).
  destruct (sql_adaptor_run st) as (a & st' & Hrun & _).
  rewrite (bind_ok _ _ _ _ _ Hrun), Hrun.
  unfold getOrders_args.
  by rewrite (getOrders_args_missing params [] params []).
Qed.

Lemma getOrders_filter_without_value_witness :
  getOrders (sample_world [] 0) 1 []
    [("NumAtCard", {["op" := PStr "="]})] initial_state
  = (Raise (KeyError "value"), (sql_adaptor initial_state).2).
Proof.
  apply (getOrders_filter_without_value (sample_world [] 0) 1 []
           [("NumAtCard", {["op" := PStr "="]})] initial_state).
  - apply NoDup_singleton.
  - apply Exists_cons_hd. reflexivity.
Defined.

(** ** Lookups of a single code *)

(** What the three lookups of a single code send and give back. *)
Lemma code_lookups_run (W : world) (name : pyval) (st : state) :
  let st1 := (sql_adaptor st).2 in
  let sqlC := "SELECT MainCurncy FROM dbo.OADM" in
  let sqlE := "SELECT ExpnsCode FROM dbo.OEXD WHERE ExpnsName = %s" in
  let sqlT := "SELECT TrnspCode FROM dbo.OSHP WHERE TrnspName = %s" in
  getMainCurrency W st
  = (subscript_row (head (cursor_rows W (trace st1) sqlC ArgsNone)) "MainCurncy",
     add_event (SqlExecute sqlC ArgsNone) st1) /\
  getExpnsCode W name st
  = (subscript_row (head (cursor_rows W (trace st1) sqlE (ArgsValue name)))
       "ExpnsCode",
     add_event (SqlExecute sqlE (ArgsValue name)) st1) /\
  getTrnspCode W name st
  = (subscript_row (head (cursor_rows W (trace st1) sqlT (ArgsTuple [name])))
       "TrnspCode",
     add_event (SqlExecute sqlT (ArgsTuple [name])) st1).
Proof.
  intros st1 sqlC sqlE sqlT.
  destruct (sql_adaptor_run st) as (a & st' & Hrun & _).
  subst st1. rewrite Hrun.
  unfold getMainCurrency, getExpnsCode, getTrnspCode, fetchone, cursor_execute.
  repeat split.
  - run_M. rewrite Hrun. simpl. by destruct (subscript_row _ _).
  - run_M. rewrite Hrun. simpl. by destruct (subscript_row _ _).
  - run_M. rewrite Hrun. simpl. by destruct (subscript_row _ _).
Qed.

(** X6. [getMainCurrency], [getExpnsCode] and [getTrnspCode] return
    the cell of the first row the statement matches, as the database
    gave it; when the statement matches no row they raise a
    [TypeError] (from subscripting [None]). *)
Theorem code_lookups (W : world) (name : pyval) (st : state) :
  let st1 := (sql_adaptor st).2 in
  let rowsC := cursor_rows W (trace st1) "SELECT MainCurncy FROM dbo.OADM"
                 ArgsNone in
  let rowsE := cursor_rows W (trace st1)
                 "SELECT ExpnsCode FROM dbo.OEXD WHERE ExpnsName = %s"
                 (ArgsValue name) in
  let rowsT := cursor_rows W (trace st1)
                 "SELECT TrnspCode FROM dbo.OSHP WHERE TrnspName = %s"
                 (ArgsTuple [name]) in
  (rowsC = [] -> exists msg, (getMainCurrency W st).1 = Raise (TypeError msg)) /\
  (rowsE = [] -> exists msg, (getExpnsCode W name st).1 = Raise (TypeError msg)) /\
  (rowsT = [] -> exists msg, (getTrnspCode W name st).1 = Raise (TypeError msg)) /\
  (forall r rest v, rowsC = r :: rest -> r !! "MainCurncy" = Some v ->
     (getMainCurrency W st).1 = Ok v) /\
  (forall r rest v, rowsE = r :: rest -> r !! "ExpnsCode" = Some v ->
     (getExpnsCode W name st).1 = Ok v) /\
  (forall r rest v, rowsT = r :: rest -> r !! "TrnspCode" = Some v ->
     (getTrnspCode W name st).1 = Ok v).
Proof.
  intros st1 rowsC rowsE rowsT.
  destruct (code_lookups_run W name st) as (HC & HE & HT).
  rewrite HC, HE, HT. fold st1 rowsC rowsE rowsT. simpl.
  repeat split.
  - intros ->. by eexists.
  - intros ->. by eexists.
  - intros ->. by eexists.
  - intros r rest v -> Hv. simpl. unfold dict_item. by rewrite Hv.
  - intros r rest v -> Hv. simpl. unfold dict_item. by rewrite Hv.
  - intros r rest v -> Hv. simpl. unfold dict_item. by rewrite Hv.
Qed.

Lemma code_lookups_witness :
  (getMainCurrency (sample_world [sample_row] 0) initial_state).1
  = Ok (PStr "USD") /\
  exists msg,
    (getTrnspCode (sample_world [] 0) (PStr "UPS") initial_state).1
    = Raise (TypeError msg).
Proof.
  split.
  - destruct (code_lookups (sample_world [sample_row] 0) PNone initial_state)
      as (_ & _ & _ & Hsome & _).
    apply (Hsome sample_row []); reflexivity.
  - destruct (code_lookups (sample_world [] 0) (PStr "UPS") initial_state)
      as (_ & _ & Hnone & _).
    apply Hnone. reflexivity.
Defined.

(** ** Statements whose parameters never reach the driver *)




(** X8. [_getShipmentItems] does not use the shipment it is asked
    about: the statement carries a [%(DocEntry)s] placeholder, the
    cursor receives no parameters, and the call is the same for any
    two shipment ids. *)
Theorem getShipmentItems_ignores_id (W : world) (id id' : pyval)
    (columns : list string) (st : state) :
  _getShipmentItems W id columns st = _getShipmentItems W id' columns st /\
  trace (_getShipmentItems W id columns st).2
  = trace (sql_adaptor st).2 ++
    [SqlExecute ("SELECT " +:+ select_cols columns +:+
                 " FROM dbo.DLN1 WHERE DocEntry = %(DocEntry)s") ArgsNone].
Proof.
  split; [reflexivity|].
  unfold _getShipmentItems. rewrite fetch_all_run. simpl.
  by rewrite !str_app_assoc.
Qed.

(** ** Shipments and their items *)

Lemma statements_snoc (tr : list event) (e : event) :
  statements (tr ++ [e])
  = statements tr ++ (if is_statement e then [e] else []).
Proof.
  unfold statements. rewrite filter_app. f_equal.
  rewrite filter_cons, filter_nil. by destruct e.
Qed.

Lemma statements_sql_adaptor (st : state) :
  statements (trace (sql_adaptor st).2) = statements (trace st).
Proof.
  unfold sql_adaptor. run_M. destruct (ctx_SQL st); simpl; [done|].
  by rewrite !statements_snoc, !app_nil_r.
Qed.

Lemma getShipmentItems_run (W : world) (id : pyval) (columns : list string)
    (st : state) :
  exists items st',
    _getShipmentItems W id columns st = (Ok items, st') /\
    length (statements (trace st')) = S (length (statements (trace st))).
Proof.
  unfold _getShipmentItems. rewrite fetch_all_run. eexists _, _.
  split; [reflexivity|]. simpl.
  rewrite statements_snoc, statements_sql_adaptor, length_app. simpl. lia.
Qed.

(** X9. The loop that attaches the items: when every shipment row
    has a [DocEntry], it returns one shipment per row, in the order of
    the rows, each with the row as its header, and sends one further
    statement per row; a row that lacks [DocEntry] makes it raise
    [KeyError('DocEntry')]. *)
Theorem attach_items_each (W : world) (itemColumns : list string)
    (shipments : list row) (st : state) :
  (Forall (λ s, is_Some (s !! "DocEntry")) shipments ->
   exists out,
     (attach_items W itemColumns shipments st).1 = Ok out /\
     shipment_header <$> out = delete "items" <$> shipments /\
     length (statements (trace (attach_items W itemColumns shipments st).2))
     = (length (statements (trace st)) + length shipments)%nat) /\
  (Exists (λ s, s !! "DocEntry" = None) shipments ->
   (attach_items W itemColumns shipments st).1 = Raise (KeyError "DocEntry")).
Proof.
  split.
  - revert st. induction shipments as [|s rest IH]; intros st Hall.
    + exists []. simpl. repeat split. lia.
    + apply Forall_cons in Hall as [[id Hid] Hall].
      destruct (getShipmentItems_run W id itemColumns st)
        as (items & st' & Hrun & Hlen).
      destruct (IH st' Hall) as (out & Hout & Hhead & Hcount).
      exists ({| shipment_header := delete "items" s;
                 shipment_items := items |} :: out).
      simpl. unfold dict_item. rewrite Hid.
      rewrite (bind_ok (lift (Ok id)) _ st st id eq_refl).
      rewrite (bind_ok _ _ _ _ _ Hrun).
      destruct (attach_items W itemColumns rest st') as [[out'|e] st''] eqn:Hrec;
        simpl in Hout; [|discriminate].
      injection Hout as ->.
      rewrite (bind_ok _ _ _ _ _ Hrec). simpl.
      split; [done|]. split; [f_equal; exact Hhead|].
      simpl in Hcount. lia.
  - revert st. induction shipments as [|s rest IH]; intros st Hex.
    + by apply Exists_nil in Hex.
    + simpl. unfold dict_item. destruct (s !! "DocEntry") as [id|] eqn:Hid.
      * apply Exists_cons in Hex as [Hex|Hex]; [simpl in Hex; congruence|].
        rewrite (bind_ok (lift (Ok id)) _ st st id eq_refl).
        destruct (getShipmentItems_run W id itemColumns st)
          as (items & st' & Hrun & _).
        rewrite (bind_ok _ _ _ _ _ Hrun).
        specialize (IH st' Hex).
        destruct (attach_items W itemColumns rest st') as [[out'|e] st''] eqn:Hrec;
          simpl in IH; [discriminate|].
        injection IH as ->. by rewrite (bind_raise _ _ _ _ _ Hrec).
      * reflexivity.
Qed.

Lemma attach_items_each_witness :
  exists out,
    (attach_items (sample_world [] 0) [] [sample_row; sample_row]
       initial_state).1 = Ok out /\
    shipment_header <$> out = delete "items" <$> [sample_row; sample_row] /\
    length (statements
              (trace (attach_items (sample_world [] 0) [] [sample_row; sample_row]
                        initial_state).2))
    = (length (statements (trace initial_state)) + 2)%nat.
Proof.
  apply (attach_items_each (sample_world [] 0) [] [sample_row; sample_row]
           initial_state).
  repeat constructor; by eexists.
Defined.

(** ** The lines of an order *)

Lemma add_events_trace (es : list event) (st : state) :
  trace (add_events es st) = trace st ++ es.
Proof.
  revert st. induction es as [|e es IH]; intros st; simpl.
  - by rewrite app_nil_r.
  - rewrite IH. simpl. by rewrite <- app_assoc.
Qed.

Lemma add_lines_step (W : world) (i : Z) (item : gmap string pyval)
    (rest : list (gmap string pyval)) (st : state) (ic q qv p pv t l : pyval) :
  item !! "itemcode" = Some ic ->
  item !! "quantity" = Some q -> py_float W q = Ok qv ->
  item !! "price" = Some p -> py_Decimal W p = Ok pv ->
  item !! "taxcode" = Some t ->
  item !! "linetotal" = Some l ->
  add_lines W i (item :: rest) st
  = add_lines W (i + 1) rest
      (add_events [ComCall "order.Lines.Add" [];
                   ComCall "order.Lines.SetCurrentLine" [PInt i];
                   ComSet "order.Lines.ItemCode" ic;
                   ComSet "order.Lines.Quantity" qv;
                   ComSet "order.Lines.Price" pv;
                   ComSet "order.Lines.TaxCode" t;
                   ComSet "order.Lines.LineTotal" l] st).
Proof.
  intros Hic Hq Hqv Hp Hpv Ht Hl. simpl. unfold dict_item.
  rewrite Hic, Hq, Hp, Ht, Hl. simpl. rewrite Hqv, Hpv. reflexivity.
Qed.

(** X10. [insertOrder] adds the lines of an order one by one: for
    lines that are well formed, there is one [Lines.Add] per item and
    the lines are made current with the indices 0, 1, 2, ... in the
    order of the items. *)
Theorem add_lines_indices (W : world) (items : list (gmap string pyval))
    (i : Z) (st : state) :
  Forall (line_ok W) items ->
  (add_lines W i items st).1 = Ok tt /\
  current_lines (trace (add_lines W i items st).2)
  = current_lines (trace st) ++
    ((λ j, [PInt j]) <$> seqZ i (Z.of_nat (length items))) /\
  count_event (ComCall "order.Lines.Add" []) (trace (add_lines W i items st).2)
  = (count_event (ComCall "order.Lines.Add" []) (trace st) + length items)%nat.
Proof.
  revert i st. induction items as [|item rest IH]; intros i st Hall.
  - simpl. rewrite app_nil_r. repeat split. lia.
  - apply Forall_cons in Hall
      as [([ic Hic] & (q & qv & Hq & Hqv) & (p & pv & Hp & Hpv)
           & [t Ht] & [l Hl]) Hall].
    rewrite (add_lines_step W i item rest st ic q qv p pv t l) by done.
    destruct (IH (i + 1) (add_events
                [ComCall "order.Lines.Add" [];
                 ComCall "order.Lines.SetCurrentLine" [PInt i];
                 ComSet "order.Lines.ItemCode" ic;
                 ComSet "order.Lines.Quantity" qv;
                 ComSet "order.Lines.Price" pv;
                 ComSet "order.Lines.TaxCode" t;
                 ComSet "order.Lines.LineTotal" l] st) Hall)
      as (Hok & Hcur & Hadd).
    split; [exact Hok|]. rewrite Hcur, Hadd, add_events_trace.
    change (length (item :: rest)) with (S (length rest)).
    split.
    + unfold current_lines. rewrite omap_app.
      rewrite Nat2Z.inj_succ, (seqZ_cons i) by lia.
      rewrite Z.pred_succ, fmap_cons.
      replace (Z.succ i) with (i + 1) by lia.
      rewrite <- app_assoc. f_equal.
    + rewrite count_event_app.
      change (count_event (ComCall "order.Lines.Add" []) [_; _; _; _; _; _; _])
        with 1%nat.
      lia.
Qed.

Lemma add_lines_indices_witness :
  current_lines
    (trace (add_lines (sample_world [] 0) 0
              (default [] (o_items sample_order) ++
               default [] (o_items sample_order)) initial_state).2)
  = [[PInt 0]; [PInt 1]].
Proof.
  destruct (add_lines_indices (sample_world [] 0)
              (default [] (o_items sample_order) ++
               default [] (o_items sample_order)) 0 initial_state)
    as (_ & Hcur & _).
  - repeat constructor; simpl; eauto.
  - exact Hcur.
Defined.

(** ** A contact after its commit *)

(** X11. After a successful [Update], [insertContact] looks the new
    contact up again: it returns the contact code of the first row
    found; when the lookup finds no row it raises [IndexError],
    although the contact has been committed. *)
Theorem insertContact_requery (W : world) (cardCode : pyval)
    (contact : gmap string pyval) (first last address : string)
    (tel email : pyval) (st : state) :
  (forall tr, com_int W tr "busPartner.Update" = 0) ->
  contact !! "FirstName" = Some (PStr first) ->
  contact !! "LastName" = Some (PStr last) ->
  contact !! "Tel1" = Some tel ->
  contact !! "E_MailL" = Some email ->
  contact !! "Address" = Some (PStr address) ->
  ((forall tr sql args, cursor_rows W tr sql args = []) ->
   (insertContact W cardCode contact st).1 = Raise IndexError /\
   ComCall "busPartner.Update" [] ∈ trace (insertContact W cardCode contact st).2) /\
  (forall r c,
     (forall tr sql args, cursor_rows W tr sql args = [r]) ->
     r !! "cntctcode" = Some c ->
     (insertContact W cardCode contact st).1 = Ok (fetch_all_value c)).
Proof.
  intros Hupdate Hfirst Hlast Htel Hemail Haddr.
  unfold insertContact.
  destruct (com_adaptor_run W st) as (a & st' & Hcom & _).
  rewrite (bind_ok _ _ _ _ _ Hcom).
  unfold dict_item, com_read, com_call, str_time, getContacts. run_M.
  rewrite Hfirst, Hlast, Htel, Hemail, Haddr. simpl.
  rewrite Hupdate. simpl.
  split.
  - intros Hrows. rewrite fetch_all_run, Hrows. simpl.
    split; [reflexivity|].
    match goal with
    | |- _ ∈ trace (sql_adaptor ?s).2 ++ _ =>
        destruct (trace_grows_sql s) as [k Hk]; rewrite Hk
    end.
    simpl. apply elem_of_app. left. apply elem_of_app. left.
    apply elem_of_app. right. constructor.
  - intros r c Hrows Hc. rewrite fetch_all_run, Hrows. simpl.
    rewrite fetch_all_item_fmap. unfold dict_item.
    by rewrite lookup_fmap, Hc.
Qed.

Lemma insertContact_requery_witness :
  (insertContact (sample_world [] 0) (PStr "C20000") sample_contact
     initial_state).1 = Raise IndexError /\
  (insertContact (sample_world [sample_row] 0) (PStr "C20000") sample_contact
     initial_state).1 = Ok (PInt 3).
Proof.
  split.
  - destruct (insertContact_requery (sample_world [] 0) (PStr "C20000")
                sample_contact "Ada" "Lovelace" "12 St James Square, London"
                (PStr "555-0100") (PStr "ada@example.com") initial_state)
      as [Hnone _]; [done|done|done|done|done|done|].
    by apply Hnone.
  - destruct (insertContact_requery (sample_world [sample_row] 0)
                (PStr "C20000") sample_contact "Ada" "Lovelace"
                "12 St James Square, London" (PStr "555-0100")
                (PStr "ada@example.com") initial_state)
      as [_ Hsome]; [done|done|done|done|done|done|].
    by apply (Hsome sample_row (PInt 3)).
Defined.

(** ** The contact person of an order *)

Lemma fetch_all_value_not_None (v : pyval) : fetch_all_value v ≠ PNone.
Proof. by destruct v. Qed.

(** X12. [getContactPersonCode] looks the contact up by first name,
    last name and e-mail.  When exactly one row comes back it returns
    the contact code of that row and does nothing else.  When none or
    several come back it creates a contact: it continues as
    [insertContact] on the looked-up contact extended by the bill-to
    address, joined and trimmed to the cap of 100, and the bill-to
    telephone number. *)
Theorem getContactPersonCode_outcomes (W : world) (o : gmap string pyval)
    (first last email cardCode : pyval) (rows : list row) (st : state) :
  o !! "billto_firstname" = Some first ->
  o !! "billto_lastname" = Some last ->
  o !! "billto_email" = Some email ->
  o !! "card_code" = Some cardCode ->
  (forall tr sql args, cursor_rows W tr sql args = rows) ->
  let contact : gmap string pyval :=
    <["E_MailL" := email]> (<["LastName" := last]> (<["FirstName" := first]> ∅)) in
  let st1 := (getContacts W 1 ["cntctcode"] cardCode contact st).2 in
  (forall r c, rows = [r] -> r !! "cntctcode" = Some c ->
     getContactPersonCode W o st = (Ok (fetch_all_value c), st1)) /\
  (forall a b c d e tel,
     length rows ≠ 1%nat ->
     o !! "billto_address" = Some (PStr a) ->
     o !! "billto_city" = Some (PStr b) ->
     o !! "billto_state" = Some (PStr c) ->
     o !! "billto_zipcode" = Some (PStr d) ->
     o !! "billto_country" = Some (PStr e) ->
     o !! "billto_telephone" = Some tel ->
     getContactPersonCode W o st
     = insertContact W cardCode
         (<["Tel1" := tel]>
            (<["Address" :=
                 PStr (trimValue (a +:+ ", " +:+ b +:+ ", " +:+ c +:+ " " +:+
                                  d +:+ ", " +:+ e) 100)]> contact))
         st1).
Proof.
  intros Hfirst Hlast Hemail Hcard Hrows contact st1.
  unfold getContactPersonCode. unfold dict_item.
  rewrite Hfirst, Hlast, Hemail, Hcard.
  rewrite !(bind_ok (lift (Ok _)) _ st st _ eq_refl).
  fold contact.
  assert (getContacts W 1 ["cntctcode"] cardCode contact st
          = (Ok (fetch_all_item <$> rows), st1)) as Hlookup.
  { subst st1. unfold getContacts. by rewrite fetch_all_run, Hrows. }
  rewrite (bind_ok _ _ _ _ _ Hlookup).
  split.
  - intros r c -> Hc. simpl. rewrite fetch_all_item_fmap.
    match goal with
    | |- (?m ≫= _) st1 = _ =>
        assert (m st1 = (Ok (fetch_all_value c), st1)) as Hcode
    end.
    { unfold list_item. run_M. by rewrite lookup_fmap, Hc. }
    rewrite (bind_ok _ _ _ _ _ Hcode).
    pose proof (fetch_all_value_not_None c) as Hnn.
    by destruct (fetch_all_value c).
  - intros a b c d e tel Hlen Ha Hb Hc Hd He Htel.
    rewrite length_fmap.
    destruct (Nat.eqb_spec (length rows) 1) as [Heq|_]; [done|].
    rewrite (bind_ok (mret PNone) _ st1 st1 _ eq_refl).
    rewrite Ha, Hb, Hc, Hd, He, Htel. reflexivity.
Qed.

Lemma getContactPersonCode_outcomes_witness :
  getContactPersonCode (sample_world [sample_row] 0) (o_fields sample_order)
    initial_state
  = (Ok (PInt 3),
     (getContacts (sample_world [sample_row] 0) 1 ["cntctcode"]
        (PStr "C20000")
        (<["E_MailL" := PStr "ada@example.com"]>
           (<["LastName" := PStr "Lovelace"]>
              (<["FirstName" := PStr "Ada"]> ∅))) initial_state).2).
Proof.
  destruct (getContactPersonCode_outcomes (sample_world [sample_row] 0)
              (o_fields sample_order) (PStr "Ada") (PStr "Lovelace")
              (PStr "ada@example.com") (PStr "C20000") [sample_row]
              initial_state) as [Hone _]; [done|done|done|done|done|].
  by apply (Hone sample_row (PInt 3)).
Defined.

(** ** An order that cannot be trimmed *)



(** ** What the operations leave alone *)

(** X14. No operation of the adaptor closes a connection: over any
    series of calls the numbers of disconnects and closes stay what
    they were.  Only the teardown hook releases. *)
Theorem calls_never_disconnect (W : world) (calls : list call) (st : state) :
  count_event ComDisconnect (trace (run_calls W calls st))
  = count_event ComDisconnect (trace st) /\
  count_event SqlClose (trace (run_calls W calls st))
  = count_event SqlClose (trace st).
Proof. apply run_calls_closes_nothing. Qed.

Global Instance keeps_com_preorder : PreOrder keeps_com.
Proof.
  split; unfold keeps_com; [intros st|intros st1 st2 st3 [] []]; [done|].
  split; congruence.
Qed.

Lemma keeps_com_event (e : event) (st : state) :
  is_connection_event e = false -> keeps_com st (add_event e st).
Proof.
  intros He. unfold keeps_com. simpl. split; [done|].
  apply count_event_other. intros ->. discriminate.
Qed.

Lemma keeps_com_sql : steps keeps_com sql_adaptor.
Proof.
  intros st. unfold sql_adaptor, keeps_com. run_M.
  destruct (ctx_SQL st); simpl; [done|].
  by rewrite !count_event_other by done.
Qed.

Lemma keeps_com_ensure (columns : option nat) :
  steps keeps_com (ensure_DocEntry columns).
Proof.
  intros st.
  destruct (ensure_DocEntry_run columns st) as (st' & -> & Hc & _ & Ht).
  unfold keeps_com. simpl. by rewrite Hc, Ht.
Qed.

(** X15. The read operations work on the database connection only:
    none of them opens the business-object connection or touches its
    handle on the context. *)
Theorem reads_leave_com (W : world) (c : call) (st : state) :
  is_read_call c = true ->
  ctx_COM (run_call W c st).2 = ctx_COM st /\
  count_event ComConnect (trace (run_call W c st).2)
  = count_event ComConnect (trace st).
Proof.
  intros Hread.
  assert (steps keeps_com (run_call W c)) as Hsteps.
  { pose proof keeps_com_event as He. pose proof keeps_com_sql as Hs.
    pose proof keeps_com_ensure as Hd.
    assert (forall A (m : M A),
              steps keeps_com m -> steps keeps_com (m;; mret tt)) as Hwrap.
    { intros A m Hm. apply (steps_bind keeps_com m (λ _, mret tt) Hm).
      intros ?. apply (steps_ret keeps_com). }
    destruct c; try discriminate Hread; simpl; apply Hwrap.
    - apply (steps_getOrders W keeps_com He Hs).
    - apply (steps_getMainCurrency W keeps_com He Hs).
    - apply (steps_getContacts W keeps_com He Hs).
    - apply (steps_getExpnsCode W keeps_com He Hs).
    - apply (steps_getTrnspCode W keeps_com He Hs).
    - apply (steps_fetch_all W keeps_com He Hs).
    - apply (steps_fetch_all W keeps_com He Hs).
    - apply (steps_fetch_all W keeps_com He Hs).
    - apply (steps_fetch_all W keeps_com He Hs).
    - apply (steps_getShipments W keeps_com He Hs Hd).
    - apply (steps_getItems W keeps_com He Hs).
    - apply (steps_getPrices W keeps_com He Hs). }
  apply Hsteps.
Qed.

Lemma reads_leave_com_witness :
  ctx_COM (run_call (sample_world [sample_row] 0)
             (Call_getOrders 1 ["DocEntry"] []) initial_state).2 = None.
Proof.
  destruct (reads_leave_com (sample_world [sample_row] 0)
              (Call_getOrders 1 ["DocEntry"] []) initial_state eq_refl)
    as [Hctx _].
  exact Hctx.
Defined.

(** X16. The list objects of the callers and the default list of
    [getShipments] are changed by nothing but [getShipments] on a list
    that lacks ['DocEntry']: every other call leaves them as they
    are. *)
Theorem calls_leave_lists (W : world) (c : call) (st : state) :
  leaves_lists c st ->
  heap (run_call W c st).2 = heap st /\
  getShipments_columns_default (run_call W c st).2
  = getShipments_columns_default st.
Proof.
  intros Hleaves.
  pose proof keeps_lists_event as He. pose proof (keeps_lists_com W) as Hc.
  pose proof keeps_lists_sql as Hs.
  assert (forall A (m : M A),
            keeps_lists st (m st).2 -> keeps_lists st ((m;; mret tt) st).2)
    as Hwrap.
  { intros A m Hm. unfold mbind, M_bind. by destruct (m st) as [[a|e] st']. }
  destruct c; simpl; apply Hwrap;
    try (first [ apply (steps_info W keeps_lists Hc)
               | apply (steps_getOrders W keeps_lists He Hs)
               | apply (steps_getMainCurrency W keeps_lists He Hs)
               | apply (steps_getContacts W keeps_lists He Hs)
               | apply (steps_insertContact W keeps_lists He Hc Hs)
               | apply (steps_getContactPersonCode W keeps_lists He Hc Hs)
               | apply (steps_getExpnsCode W keeps_lists He Hs)
               | apply (steps_getTrnspCode W keeps_lists He Hs)
               | apply (steps_fetch_all W keeps_lists He Hs)
               | apply (steps_insertOrder W keeps_lists He Hc Hs)
               | apply (steps_cancelOrder W keeps_lists He Hc Hs)
               | apply (steps_getItems W keeps_lists He Hs)
               | apply (steps_getPrices W keeps_lists He Hs) ]).
  rewrite getShipments_state.
  assert ((ensure_DocEntry columns st).2 = st) as ->.
  { unfold ensure_DocEntry, read_list. run_M. simpl in Hleaves.
    rewrite bool_decide_false by (intros Hn; by apply Hn). done. }
  apply getShipments_query_lists.
Qed.

Lemma calls_leave_lists_witness :
  heap (run_call (sample_world [sample_row] 0) (Call_insertOrder sample_order)
          (set_heap {[7%nat := ["CardCode"]]} initial_state)).2
  = {[7%nat := ["CardCode"]]}.
Proof.
  destruct (calls_leave_lists (sample_world [sample_row] 0)
              (Call_insertOrder sample_order)
              (set_heap {[7%nat := ["CardCode"]]} initial_state) I)
    as [Hheap _].
  exact Hheap.
Defined.

(** X17. Two names [insertContact] synthesizes are equal only when
    the texts of their timestamps are: the text has no blank, so the
    last blank of a name separates it from the name part. *)
Theorem contact_names_differ (first1 last1 now1 first2 last2 now2 : string) :
  no_blank now1 = true -> no_blank now2 = true ->
  now1 ≠ now2 ->
  contact_name first1 last1 now1 ≠ contact_name first2 last2 now2.
Proof.
  intros H1 H2 Hne Heq. apply Hne.
  by apply (contact_name_suffix first1 last1 now1 first2 last2 now2).
Qed.

Lemma contact_names_differ_witness :
  contact_name "Ada" "Lovelace" "1400000000.12"
  ≠ contact_name "Ada" "Lovelace" "1400000000.13".
Proof.
  apply (contact_names_differ "Ada" "Lovelace" "1400000000.12"
           "Ada" "Lovelace" "1400000000.13"); [reflexivity|reflexivity|].
  discriminate.
Defined.

(** ** Warehouse before item code *)

(** X18. In [getItems] and [getPrices] a warehouse code takes
    precedence: when one is given, the item code plays no part in the
    statement; an empty warehouse code counts as none. *)
Theorem warehouse_takes_precedence (limit : Z)
    (columns code code' : option string) (whs : string) :
  whs ≠ "" ->
  getItems_sql limit columns (Some whs) code
  = getItems_sql limit columns (Some whs) code' /\
  getPrices_sql limit columns (Some whs) code
  = getPrices_sql limit columns (Some whs) code' /\
  getItems_sql limit columns (Some "") code
  = getItems_sql limit columns None code /\
  getPrices_sql limit columns (Some "") code
  = getPrices_sql limit columns None code.
Proof.
  intros Hwhs. unfold getItems_sql, getPrices_sql.
  by rewrite (truthy_Some whs Hwhs).
Qed.

Lemma warehouse_takes_precedence_witness :
  getItems_sql 10 None (Some "01") (Some "A00001")
  = getItems_sql 10 None (Some "01") None.
Proof.
  destruct (warehouse_takes_precedence 10 None (Some "A00001") None "01")
    as [Hitems _]; [done|exact Hitems].
Defined.
